(** * Client session layer of the natural-language data-query frontend

    Shallow embedding of the React client: the [App] component
    ([src/frontend/src/index.css]), the [QueryEditor] component
    ([src/unnamed/part_000]), the [FileUpload] component, the [Tutorial]
    component and the axios-based [apiService] ([src/unnamed/part_001]).

    JSON payloads exchanged with the server are modelled as JavaScript
    values ([jval]).  The whole running page is one record [World]
    holding the [App] state, the local state of the [QueryEditor] and
    [FileUpload] components, the list of HTTP requests issued so far, and
    the toasts / console messages emitted.  Asynchronous handlers run in a
    small state-and-exception monad [M] over [World]; each [await] of an
    API call becomes a call to a server oracle [srv]. *)

From Stdlib Require Import List String Ascii ZArith Bool Lia DecimalNat.
Import ListNotations.
Open Scope string_scope.
Set Warnings "-register-all".

(* ------------------------------------------------------------------ *)
(** ** JavaScript values *)

Inductive jval : Type :=
| JUndefined
| JNull
| JBool (b : bool)
| JNum (n : Z)
| JStr (s : string)
| JArr (l : list jval)
| JObj (fields : list (string * jval)).

(** Truthiness, as used by [!x], [x || y], [x && y] and [if (x)]. *)
Definition truthy (v : jval) : bool :=
  match v with
  | JUndefined | JNull => false
  | JBool b => b
  | JNum n => negb (Z.eqb n 0)
  | JStr s => negb (String.eqb s "")
  | JArr _ | JObj _ => true
  end.

(** [x || y] *)
Definition js_or (x y : jval) : jval := if truthy x then x else y.

(** [x && y] *)
Definition js_and (x y : jval) : jval := if truthy x then y else x.

(** [===] on primitives.  Identifiers compared by the code are strings or
    numbers; object identity is not modelled, two objects are never [===]. *)
Definition strict_eq (x y : jval) : bool :=
  match x, y with
  | JUndefined, JUndefined => true
  | JNull, JNull => true
  | JBool a, JBool b => Bool.eqb a b
  | JNum a, JNum b => Z.eqb a b
  | JStr a, JStr b => String.eqb a b
  | _, _ => false
  end.

(** Field of a JSON object as produced by [JSON.parse]: the last binding
    of a key wins. *)
Definition field (fs : list (string * jval)) (k : string) : jval :=
  match find (fun kv => String.eqb (fst kv) k) (rev fs) with
  | Some (_, v) => v
  | None => JUndefined
  end.

(** Property read with optional chaining, [v?.k]: [undefined] on
    [null]/[undefined] and on a missing property; arrays and strings only
    have [length]. *)
Definition prop (v : jval) (k : string) : jval :=
  match v with
  | JObj fs => field fs k
  | JArr l => if String.eqb k "length" then JNum (Z.of_nat (List.length l)) else JUndefined
  | JStr s => if String.eqb k "length" then JNum (Z.of_nat (String.length s)) else JUndefined
  | _ => JUndefined
  end.

(** [v > 0] as the code uses it on a [length]. *)
Definition gt_zero (v : jval) : bool :=
  match v with
  | JNum n => Z.ltb 0 n
  | JBool b => b
  | _ => false
  end.

(** The array a state setter receives.  The [App] state holds arrays
    ([useState([])]); the code stores [x || []], an array whenever [x] is an
    array or falsy. *)
Definition array_value (v : jval) : list jval :=
  match v with
  | JArr l => l
  | _ => []
  end.

(* ------------------------------------------------------------------ *)
(** ** String primitives: [split], [pop], [toLowerCase], [trim] *)

(** [s.split(sep)] for a one-character separator. *)
Fixpoint split_go (sep : ascii) (s : string) (acc : string) : list string :=
  match s with
  | EmptyString => [acc]
  | String c rest =>
      if Ascii.eqb c sep then acc :: split_go sep rest ""
      else split_go sep rest (acc ++ String c "")
  end.

Definition split (sep : ascii) (s : string) : list string := split_go sep s "".

(** [arr.pop()] on the (never empty) result of [split]. *)
Definition pop (l : list string) : string := last l "".

(** [toLowerCase] on Latin-1 characters. *)
Definition lower_char (c : ascii) : ascii :=
  let n := nat_of_ascii c in
  if (Nat.leb 65 n && Nat.leb n 90) || (Nat.leb 192 n && Nat.leb n 222 && negb (Nat.eqb n 215))
  then ascii_of_nat (n + 32)%nat else c.

Fixpoint toLowerCase (s : string) : string :=
  match s with
  | EmptyString => EmptyString
  | String c rest => String (lower_char c) (toLowerCase rest)
  end.

(** JavaScript white space and line terminators among Latin-1 characters:
    TAB, LF, VT, FF, CR, SPACE and NO-BREAK SPACE. *)
Definition is_js_space (c : ascii) : bool :=
  let n := nat_of_ascii c in
  (Nat.leb 9 n && Nat.leb n 13) || Nat.eqb n 32 || Nat.eqb n 160.

Fixpoint trim_start (s : string) : string :=
  match s with
  | EmptyString => EmptyString
  | String c rest => if is_js_space c then trim_start rest else s
  end.

Fixpoint rev_string (s : string) : string :=
  match s with
  | EmptyString => EmptyString
  | String c rest => rev_string rest ++ String c ""
  end.

Definition trim (s : string) : string :=
  rev_string (trim_start (rev_string (trim_start s))).

(* ------------------------------------------------------------------ *)
(** ** The running page *)

(** [App] state ([useState] hooks of [function App()]). *)
Record App := mkApp {
  currentView : string;
  datasets : list jval;
  selectedDataset : jval;
  loading : bool;
  config : jval;
  queryHistory : list jval;
  tutorialProgress : jval;
  isOnboarding : bool
}.

Definition initialApp : App :=
  mkApp "dashboard" [] JNull true JNull [] (JObj []) false.

(** Local state of [QueryEditor]. *)
Record Editor := mkEditor {
  query : string;
  isExecuting : bool;
  queryResult : jval
}.

(** Local state of [FileUpload]. *)
Record Uploader := mkUploader {
  uploadProgress : Z;
  isUploading : bool;
  uploadedFile : jval;
  previewData : jval;
  showPreview : bool
}.

(** HTTP requests the [apiService] methods issue. *)
Inductive Request :=
| GetConfig
| GetDatasets
| GetQueryHistory
| DeleteDataset (datasetId : jval)
| ExecuteQuery (q : string) (datasetId : jval)
| UploadFile (fileName : string).

(** What an awaited axios call yields: a 2xx response with its body, an
    error status with its body, or no response at all. *)
Inductive Response :=
| Resolved (data : jval)
| ServerFailure (data : jval)
| NetworkFailure.

(** User-visible and console output. *)
Inductive Notice :=
| ToastError (msg : jval)
| ToastSuccess (msg : jval)
| ConsoleError (msg : string).

Record World := mkWorld {
  app : App;
  editor : Editor;
  uploader : Uploader;
  requests : list Request;
  notices : list Notice
}.

Definition set_app (a : App) (w : World) : World :=
  mkWorld a (editor w) (uploader w) (requests w) (notices w).
Definition set_editor (e : Editor) (w : World) : World :=
  mkWorld (app w) e (uploader w) (requests w) (notices w).
Definition set_uploader (u : Uploader) (w : World) : World :=
  mkWorld (app w) (editor w) u (requests w) (notices w).
Definition log_request (r : Request) (w : World) : World :=
  mkWorld (app w) (editor w) (uploader w) (requests w ++ [r]) (notices w).
Definition log_notice (n : Notice) (w : World) : World :=
  mkWorld (app w) (editor w) (uploader w) (requests w) (notices w ++ [n]).

(** Setters of the [App] hooks. *)
Definition setDatasets_ (v : list jval) (a : App) : App :=
  mkApp (currentView a) v (selectedDataset a) (loading a) (config a)
        (queryHistory a) (tutorialProgress a) (isOnboarding a).
Definition setSelectedDataset_ (v : jval) (a : App) : App :=
  mkApp (currentView a) (datasets a) v (loading a) (config a)
        (queryHistory a) (tutorialProgress a) (isOnboarding a).
Definition setLoading_ (v : bool) (a : App) : App :=
  mkApp (currentView a) (datasets a) (selectedDataset a) v (config a)
        (queryHistory a) (tutorialProgress a) (isOnboarding a).
Definition setConfig_ (v : jval) (a : App) : App :=
  mkApp (currentView a) (datasets a) (selectedDataset a) (loading a) v
        (queryHistory a) (tutorialProgress a) (isOnboarding a).
Definition setQueryHistory_ (v : list jval) (a : App) : App :=
  mkApp (currentView a) (datasets a) (selectedDataset a) (loading a) (config a)
        v (tutorialProgress a) (isOnboarding a).
Definition setIsOnboarding_ (v : bool) (a : App) : App :=
  mkApp (currentView a) (datasets a) (selectedDataset a) (loading a) (config a)
        (queryHistory a) (tutorialProgress a) v.

(* ------------------------------------------------------------------ *)
(** ** State-and-exception monad *)

Inductive Exc (A : Type) :=
| Ok (a : A)
| Throw (e : jval).
Arguments Ok {A} a.
Arguments Throw {A} e.

Definition M (A : Type) : Type := World -> Exc A * World.

Definition ret {A} (a : A) : M A := fun w => (Ok a, w).

Definition bind {A B} (m : M A) (k : A -> M B) : M B :=
  fun w => match m w with
           | (Ok a, w') => k a w'
           | (Throw e, w') => (Throw e, w')
           end.

Definition throw {A} (e : jval) : M A := fun w => (Throw e, w).

Notation "x <- m1 ;; m2" := (bind m1 (fun x => m2))
  (at level 61, m1 at next level, right associativity).
Notation "m1 ;; m2" := (bind m1 (fun _ : unit => m2))
  (at level 61, right associativity).

(** [try { m } catch (e) { h(e) }] *)
Definition try_catch {A} (m : M A) (h : jval -> M A) : M A :=
  fun w => match m w with
           | (Throw e, w') => h e w'
           | r => r
           end.

(** [try { m } finally { f }] *)
Definition try_finally {A} (m : M A) (f : M unit) : M A :=
  fun w => match m w with
           | (r, w') => match f w' with
                        | (Ok _, w'') => (r, w'')
                        | (Throw e, w'') => (Throw e, w'')
                        end
           end.

Definition modify_app (f : App -> App) : M unit := fun w => (Ok tt, set_app (f (app w)) w).
Definition get_app : M App := fun w => (Ok (app w), w).
Definition modify_editor (f : Editor -> Editor) : M unit :=
  fun w => (Ok tt, set_editor (f (editor w)) w).
Definition get_editor : M Editor := fun w => (Ok (editor w), w).
Definition modify_uploader (f : Uploader -> Uploader) : M unit :=
  fun w => (Ok tt, set_uploader (f (uploader w)) w).
Definition notice (n : Notice) : M unit := fun w => (Ok tt, log_notice n w).

(** Plain property read [v.k]: a [TypeError] on [null] and [undefined]. *)
Definition dot (v : jval) (k : string) : M jval :=
  match v with
  | JUndefined | JNull => throw (JStr "TypeError: Cannot read properties of null")
  | _ => ret (prop v k)
  end.

Definition setIsExecuting_ (v : bool) (e : Editor) : Editor :=
  mkEditor (query e) v (queryResult e).
Definition setQueryResult_ (v : jval) (e : Editor) : Editor :=
  mkEditor (query e) (isExecuting e) v.

Definition setUploadProgress_ (v : Z) (u : Uploader) : Uploader :=
  mkUploader v (isUploading u) (uploadedFile u) (previewData u) (showPreview u).
Definition setIsUploading_ (v : bool) (u : Uploader) : Uploader :=
  mkUploader (uploadProgress u) v (uploadedFile u) (previewData u) (showPreview u).
Definition setUploadedFile_ (v : jval) (u : Uploader) : Uploader :=
  mkUploader (uploadProgress u) (isUploading u) v (previewData u) (showPreview u).
Definition setPreviewData_ (v : jval) (u : Uploader) : Uploader :=
  mkUploader (uploadProgress u) (isUploading u) (uploadedFile u) v (showPreview u).
Definition setShowPreview_ (v : bool) (u : Uploader) : Uploader :=
  mkUploader (uploadProgress u) (isUploading u) (uploadedFile u) (previewData u) v.

(** A dropped file; only its name is read by the client. *)
Record File := mkFile { name : string }.

(* ------------------------------------------------------------------ *)
(** ** Handlers, over a server [srv] answering each request *)

Module ApiService.
Section Api.

Variable srv : Request -> Response.

(** Issue an HTTP request and await it, with no other event before its
    response ([await_split]: [send] then [settle]).  Where events can
    come in between, the handlers are split at this point, see [Split]. *)
Definition call (r : Request) : M Response :=
  fun w => (Ok (srv r), log_request r w).

(** The error object axios rejects with. *)
Definition axios_error (r : Response) : jval :=
  match r with
  | ServerFailure d =>
      JObj [("message", JStr "Request failed with status code");
            ("response", JObj [("data", d)])]
  | _ => JObj [("message", JStr "Network Error")]
  end.

(** An axios call resolving with [response.data]; failures pass the
    response interceptor, which logs them and rejects. *)
Definition await_ (r : Request) : M jval :=
  resp <- call r ;;
  match resp with
  | Resolved d => ret d
  | other => notice (ConsoleError "API Error:") ;; throw (axios_error other)
  end.

(** [apiService] *)

Definition getConfig : M jval :=
  try_catch (await_ GetConfig)
    (fun _ => throw (JStr "Failed to get configuration")).

Definition getDatasets : M jval :=
  try_catch (data <- await_ GetDatasets ;; dot data "datasets")
    (fun _ => throw (JStr "Failed to get datasets")).

Definition getQueryHistory : M jval :=
  try_catch (data <- await_ GetQueryHistory ;; dot data "queries")
    (fun _ => throw (JStr "Failed to get query history")).

Definition deleteDataset (datasetId : jval) : M jval :=
  try_catch (await_ (DeleteDataset datasetId))
    (fun _ => throw (JStr "Failed to delete dataset")).

Definition executeQuery (q : string) (datasetId : jval) : M jval :=
  try_catch (await_ (ExecuteQuery q datasetId))
    (fun error => throw (js_or (prop (prop (prop error "response") "data") "detail")
                               (JStr "Failed to execute query"))).

(** Progress events of the upload are not modelled. *)
Definition uploadFile (file : File) : M jval :=
  try_catch (await_ (UploadFile (name file)))
    (fun error =>
       notice (ConsoleError "API Error:") ;;
       notice (ConsoleError "Full error:") ;;
       let detail := prop (prop (prop error "response") "data") "error" in
       if truthy detail then throw detail
       else if strict_eq (prop error "message") (JStr "Network Error")
       then throw (JStr "Cannot connect to server. Please check if the backend is running.")
       else throw (js_or (prop error "message") (JStr "Upload failed"))).

End Api.
End ApiService.

(** *** [App] *)

Module AppHandlers.
Section Handlers.

Variable srv : Request -> Response.


Definition initializeApp : M unit :=
  try_finally
    (try_catch
       (modify_app (setLoading_ true) ;;
        configData <- ApiService.getConfig srv ;;
        modify_app (setConfig_ configData) ;;
        datasetsData <- ApiService.getDatasets srv ;;
        ds <- dot datasetsData "datasets" ;;
        modify_app (setDatasets_ (array_value (js_or ds (JArr [])))) ;;
        queryHistoryData <- ApiService.getQueryHistory srv ;;
        qs <- dot queryHistoryData "queries" ;;
        modify_app (setQueryHistory_ (array_value (js_or qs (JArr [])))) ;;
        hasDatasets <- (if truthy ds then (n <- dot ds "length" ;; ret (JBool (gt_zero n)))
                        else ret ds) ;;
        hasQueries <- (if truthy qs then (n <- dot qs "length" ;; ret (JBool (gt_zero n)))
                       else ret qs) ;;
        if negb (truthy hasDatasets) && negb (truthy hasQueries)
        then modify_app (setIsOnboarding_ true)
        else ret tt)
       (fun _ => notice (ConsoleError "Error initializing app:")))
    (modify_app (setLoading_ false)).

(** Called at once, it reads the current selection; the [onUpload] that
    [onDrop] calls after its [await] is the closure of the render of the
    drop, [handleDatasetUploadWith] ([appOnDrop_split]). *)
Definition handleDatasetUpload (uploadedDataset : jval) : M unit :=
  a <- get_app ;;
  modify_app (fun a' => setDatasets_ (uploadedDataset :: datasets a') a') ;;
  if negb (truthy (selectedDataset a))
  then modify_app (setSelectedDataset_ uploadedDataset)
  else ret tt.

Definition handleQueryExecution (queryResult : jval) : M unit :=
  modify_app (fun a => setQueryHistory_ (queryResult :: queryHistory a) a).

Definition handleDatasetSelect (dataset : jval) : M unit :=
  modify_app (setSelectedDataset_ dataset).

(** [selectedDataset] is the value captured when the handler is called;
    the entries of [datasets] are the server's JSON objects.  This is the
    run in which the response arrives before any other event
    ([handleDatasetDelete_split]); [Split.deleteStart] and
    [Split.deleteResume] are its two halves. *)
Definition handleDatasetDelete (datasetId : jval) : M unit :=
  a <- get_app ;;
  try_catch
    (_ <- ApiService.deleteDataset srv datasetId ;;
     modify_app (fun a' =>
       setDatasets_ (filter (fun d => negb (strict_eq (prop d "id") datasetId)) (datasets a')) a') ;;
     if strict_eq (prop (selectedDataset a) "id") datasetId
     then modify_app (setSelectedDataset_ JNull)
     else ret tt)
    (fun _ => notice (ConsoleError "Error deleting dataset:")).

End Handlers.
End AppHandlers.

(** *** [QueryEditor] *)

Module QueryEditor.
Section Editor.

Variable srv : Request -> Response.

(** [onQueryExecute] is the prop the [App] passes in. *)
Definition executeQuery (onQueryExecute : jval -> M unit) : M unit :=
  e <- get_editor ;;
  a <- get_app ;;
  let q := query e in
  let selectedDataset := selectedDataset a in
  if String.eqb (trim q) "" then notice (ToastError (JStr "Please enter a query"))
  else if negb (truthy selectedDataset)
  then notice (ToastError (JStr "Please select a dataset first"))
  else
    modify_editor (setIsExecuting_ true) ;;
    modify_editor (setQueryResult_ JNull) ;;
    try_finally
      (try_catch
         (datasetId <- dot selectedDataset "id" ;;
          result <- ApiService.executeQuery srv q datasetId ;;
          modify_editor (setQueryResult_ result) ;;
          onQueryExecute result ;;
          success <- dot result "success" ;;
          if truthy success
          then notice (ToastSuccess (JStr "Query executed successfully!"))
          else (err <- dot result "error" ;;
                notice (ToastError (js_or err (JStr "Query execution failed")))))
         (fun _ => notice (ToastError (JStr "Failed to execute query")) ;;
                   notice (ConsoleError "Query execution error:")))
      (modify_editor (setIsExecuting_ false)).

End Editor.
End QueryEditor.

(** *** [FileUpload] *)

Module FileUpload.

Definition supportedTypes : list string := ["csv"; "json"; "xlsx"; "xls"].

(** [file.name.split('.').pop().toLowerCase()] *)
Definition fileExtension (file : File) : string :=
  toLowerCase (pop (split "." (name file))).

(** [supportedTypes.includes(fileExtension)] *)
Definition isSupported (file : File) : bool :=
  existsb (String.eqb (fileExtension file)) supportedTypes.

Section Upload.

Variable srv : Request -> Response.

(** [onUpload] is the prop the [App] passes in. *)
Definition onDrop (onUpload : jval -> M unit) (acceptedFiles : list File) : M unit :=
  match acceptedFiles with
  | [] => ret tt
  | file :: _ =>
      if negb (isSupported file)
      then notice (ToastError (JStr "Unsupported file type. Please upload CSV, JSON, or Excel files."))
      else
        modify_uploader (setIsUploading_ true) ;;
        modify_uploader (setUploadProgress_ 0%Z) ;;
        try_finally
          (try_catch
             (result <- ApiService.uploadFile srv file ;;
              modify_uploader (setUploadedFile_ result) ;;
              metadata <- dot result "metadata" ;;
              modify_uploader (setPreviewData_ (js_or (prop metadata "sample_data") (JArr []))) ;;
              onUpload result ;;
              notice (ToastSuccess (JStr "File uploaded successfully!")) ;;
              modify_uploader (setShowPreview_ true))
             (fun _ => notice (ConsoleError "Upload error:") ;;
                       notice (ToastError (JStr "Failed to upload file. Please try again."))))
          (modify_uploader (setIsUploading_ false) ;;
           modify_uploader (setUploadProgress_ 0%Z))
  end.

End Upload.
End FileUpload.

(** The [App] wires [FileUpload.onUpload] to [handleDatasetUpload] and
    [QueryEditor.onQueryExecute] to [handleQueryExecution]. *)
Definition appOnDrop (srv : Request -> Response) : list File -> M unit :=
  FileUpload.onDrop srv AppHandlers.handleDatasetUpload.

Definition appExecuteQuery (srv : Request -> Response) : M unit :=
  QueryEditor.executeQuery srv AppHandlers.handleQueryExecution.

(* ------------------------------------------------------------------ *)
(** ** Handlers split at their [await]

    While a request is in flight the browser keeps running events: the
    user can select a dataset, drop another file or delete another
    dataset.  An [async] handler is therefore split into the part up to
    its [await], which sends the request, and its continuation, which runs
    when the response arrives.  The continuation sees the values its
    closure captured in the render the handler was started from, not the
    current state. *)

(** Send a request without waiting for it. *)
Definition send (r : Request) : M unit := fun w => (Ok tt, log_request r w).

(** The response half of [ApiService.await_]: the response interceptor
    logs a failure when it arrives. *)
Definition settle (resp : Response) : M jval :=
  match resp with
  | Resolved d => ret d
  | other => notice (ConsoleError "API Error:") ;; throw (ApiService.axios_error other)
  end.

(** [handleDatasetUpload] as the closure of one render: [selectedDataset]
    is the value of that render. *)
Definition handleDatasetUploadWith (selectedDataset uploadedDataset : jval) : M unit :=
  modify_app (fun a' => setDatasets_ (uploadedDataset :: datasets a') a') ;;
  if negb (truthy selectedDataset)
  then modify_app (setSelectedDataset_ uploadedDataset)
  else ret tt.

Module Split.
Section Split.

Variable srv : Request -> Response.

(** [handleDatasetDelete] up to [await apiService.deleteDataset(datasetId)]. *)
Definition deleteStart (datasetId : jval) : M unit := send (DeleteDataset datasetId).

(** The rest of [handleDatasetDelete], when the response arrives;
    [selectedDataset] is the one of the render the click ran in. *)
Definition deleteResume (datasetId selectedDataset : jval) : M unit :=
  try_catch
    (_ <- try_catch (settle (srv (DeleteDataset datasetId)))
                    (fun _ => throw (JStr "Failed to delete dataset")) ;;
     modify_app (fun a' =>
       setDatasets_ (filter (fun d => negb (strict_eq (prop d "id") datasetId)) (datasets a')) a') ;;
     if strict_eq (prop selectedDataset "id") datasetId
     then modify_app (setSelectedDataset_ JNull)
     else ret tt)
    (fun _ => notice (ConsoleError "Error deleting dataset:")).

(** [onDrop] of a supported file up to [await apiService.uploadFile(...)]. *)
Definition uploadStart (file : File) : M unit :=
  modify_uploader (setIsUploading_ true) ;;
  modify_uploader (setUploadProgress_ 0%Z) ;;
  send (UploadFile (name file)).

(** [apiService.uploadFile] once its response is in. *)
Definition uploadSettle (file : File) : M jval :=
  try_catch (settle (srv (UploadFile (name file))))
    (fun error =>
       notice (ConsoleError "API Error:") ;;
       notice (ConsoleError "Full error:") ;;
       let detail := prop (prop (prop error "response") "data") "error" in
       if truthy detail then throw detail
       else if strict_eq (prop error "message") (JStr "Network Error")
       then throw (JStr "Cannot connect to server. Please check if the backend is running.")
       else throw (js_or (prop error "message") (JStr "Upload failed"))).

(** The rest of [onDrop], when the upload response arrives.  Its
    [onUpload] is the [handleDatasetUpload] of the render the drop ran in
    ([useCallback(..., [onUpload])]), holding that render's
    [selectedDataset]. *)
Definition uploadResume (file : File) (selectedDataset : jval) : M unit :=
  try_finally
    (try_catch
       (result <- uploadSettle file ;;
        modify_uploader (setUploadedFile_ result) ;;
        metadata <- dot result "metadata" ;;
        modify_uploader (setPreviewData_ (js_or (prop metadata "sample_data") (JArr []))) ;;
        handleDatasetUploadWith selectedDataset result ;;
        notice (ToastSuccess (JStr "File uploaded successfully!")) ;;
        modify_uploader (setShowPreview_ true))
       (fun _ => notice (ConsoleError "Upload error:") ;;
                 notice (ToastError (JStr "Failed to upload file. Please try again."))))
    (modify_uploader (setIsUploading_ false) ;;
     modify_uploader (setUploadProgress_ 0%Z)).

End Split.
End Split.

(* ------------------------------------------------------------------ *)
(** ** [Tutorial] component *)

Module Tutorial.

Record Lesson := mkLesson { lesson_id : nat; lesson_title : string }.
Record Level := mkLevel { level_id : nat; level_title : string; lessons : list Lesson }.

Definition tutorialLevels : list Level :=
  [ mkLevel 1 "Getting Started"
      [mkLesson 1 "What is Sankalp?"; mkLesson 2 "Basic Data Operations";
       mkLesson 3 "Understanding Results"];
    mkLevel 2 "Data Filtering"
      [mkLesson 1 "Comparison Filters"; mkLesson 2 "Text Search"];
    mkLevel 3 "Data Analysis"
      [mkLesson 1 "Basic Calculations"; mkLesson 2 "Grouping Data"];
    mkLevel 4 "Data Visualization"
      [mkLesson 1 "Basic Charts"; mkLesson 2 "Advanced Visualizations"] ].

(** Decimal rendering of a number inside a template literal. *)
Fixpoint string_of_uint (d : Decimal.uint) : string :=
  match d with
  | Decimal.Nil => ""
  | Decimal.D0 d' => String "0" (string_of_uint d')
  | Decimal.D1 d' => String "1" (string_of_uint d')
  | Decimal.D2 d' => String "2" (string_of_uint d')
  | Decimal.D3 d' => String "3" (string_of_uint d')
  | Decimal.D4 d' => String "4" (string_of_uint d')
  | Decimal.D5 d' => String "5" (string_of_uint d')
  | Decimal.D6 d' => String "6" (string_of_uint d')
  | Decimal.D7 d' => String "7" (string_of_uint d')
  | Decimal.D8 d' => String "8" (string_of_uint d')
  | Decimal.D9 d' => String "9" (string_of_uint d')
  end.

Definition show_nat (n : nat) : string := string_of_uint (Nat.to_uint n).

(** [`${levelId}-${lessonId}`] *)
Definition lessonKey (levelId lessonId : nat) : string :=
  show_nat levelId ++ "-" ++ show_nat lessonId.

(** Component state; [completedLessons] is a JavaScript [Set] of keys,
    kept as its list of distinct elements in insertion order. *)
Record Tutor := mkTutor {
  currentLevel : nat;
  currentLesson : nat;
  completedLessons : list string
}.

Definition initialTutor : Tutor := mkTutor 1 1 [].

(** [new Set([...prev, key])] *)
Definition set_add (key : string) (s : list string) : list string :=
  if existsb (String.eqb key) s then s else s ++ [key].

Definition findLevel (levelId : nat) : option Level :=
  find (fun l => Nat.eqb (level_id l) levelId) tutorialLevels.

Definition isLessonCompleted (st : Tutor) (levelId lessonId : nat) : bool :=
  existsb (String.eqb (lessonKey levelId lessonId)) (completedLessons st).

(** Level identifiers are positive, so [levelId - 1] never truncates on
    the levels the view asks about. *)
Definition isLevelUnlocked (st : Tutor) (levelId : nat) : bool :=
  if Nat.eqb levelId 1 then true
  else match findLevel (levelId - 1) with
       | None => false
       | Some previousLevel =>
           forallb (fun lesson => isLessonCompleted st (levelId - 1) (lesson_id lesson))
                   (lessons previousLevel)
       end.

(** [completeLesson]; [None] is the [TypeError] on [currentLevelData.lessons]
    when [currentLevel] names no level. *)
Definition completeLesson (st : Tutor) : option Tutor :=
  match findLevel (currentLevel st) with
  | None => None
  | Some currentLevelData =>
      let completed := set_add (lessonKey (currentLevel st) (currentLesson st))
                               (completedLessons st) in
      if Nat.ltb (currentLesson st) (List.length (lessons currentLevelData))
      then Some (mkTutor (currentLevel st) (currentLesson st + 1) completed)
      else if Nat.ltb (currentLevel st) (List.length tutorialLevels)
      then Some (mkTutor (currentLevel st + 1) 1 completed)
      else Some (mkTutor (currentLevel st) (currentLesson st) completed)
  end.

(** The level card's button, rendered only for unlocked levels. *)
Definition startLevel (st : Tutor) (levelId : nat) : Tutor :=
  if isLevelUnlocked st levelId
  then mkTutor levelId (currentLesson st) (completedLessons st)
  else st.

(** [getLevelProgress]: the counts [completedCount] and
    [level.lessons.length] it divides (the quotient is then scaled by 100
    in floating point); [None] is the early [return 0] of an unknown level. *)
Definition levelProgress (st : Tutor) (levelId : nat) : option (nat * nat) :=
  match findLevel levelId with
  | None => None
  | Some level =>
      Some (List.length (filter (fun lesson => isLessonCompleted st levelId (lesson_id lesson))
                                (lessons level)),
            List.length (lessons level))
  end.

(** [progress === 100] in [LevelCard].  For counts [c <= n] below 2^50 the
    double [(c / n) * 100] equals 100 exactly when [c = n <> 0]
    ([0 / 0] is [NaN]); catalog levels have two or three lessons. *)
Definition isLevelCompleted (st : Tutor) (levelId : nat) : bool :=
  match levelProgress st levelId with
  | Some (completedCount, n) => Nat.eqb completedCount n && negb (Nat.eqb n 0)
  | None => false
  end.

End Tutorial.

(* ------------------------------------------------------------------ *)
(** ** [DataManager] component *)

Module DataManager.

(** [s.includes(sub)] *)
Fixpoint includes (s sub : string) : bool :=
  String.prefix sub s ||
  match s with
  | EmptyString => false
  | String _ rest => includes rest sub
  end.

(** [v.toLowerCase()]; [None] is the [TypeError] on a value that is not a
    string ([undefined], [null], a number, ...). *)
Definition lowerOf (v : jval) : option string :=
  match v with
  | JStr s => Some (toLowerCase s)
  | _ => None
  end.

(** The predicate of [filteredDatasets]: [||] evaluates the file type only
    when the name does not match. *)
Definition matchesSearch (searchTerm : string) (dataset : jval) : option bool :=
  match lowerOf (prop dataset "original_name") with
  | None => None
  | Some n =>
      if includes n (toLowerCase searchTerm) then Some true
      else match lowerOf (prop dataset "file_type") with
           | None => None
           | Some t => Some (includes t (toLowerCase searchTerm))
           end
  end.

(** [datasets.filter(...)], before the sort; [None] when the predicate
    throws on some dataset, which makes the render throw. *)
Fixpoint filterDatasets (searchTerm : string) (ds : list jval) : option (list jval) :=
  match ds with
  | [] => Some []
  | d :: rest =>
      match matchesSearch searchTerm d with
      | None => None
      | Some keep =>
          match filterDatasets searchTerm rest with
          | None => None
          | Some l => Some (if keep then d :: l else l)
          end
      end
  end.

(** [selectedDatasets], a JavaScript [Set] of dataset ids kept as its list
    of elements in insertion order; ids are primitives, for which the
    [Set]'s SameValueZero is [===]. *)
Definition set_has (x : jval) (s : list jval) : bool := existsb (strict_eq x) s.
Definition set_delete (x : jval) (s : list jval) : list jval :=
  filter (fun y => negb (strict_eq x y)) s.
Definition set_add (x : jval) (s : list jval) : list jval :=
  if set_has x s then s else s ++ [x].

(** [new Set(array)] *)
Definition set_of (l : list jval) : list jval :=
  fold_left (fun s x => set_add x s) l [].

Definition handleSelectDataset (datasetId : jval) (selectedDatasets : list jval) : list jval :=
  if set_has datasetId selectedDatasets then set_delete datasetId selectedDatasets
  else set_add datasetId selectedDatasets.

(** [filteredDatasets] is passed in; its order (the sort) does not change
    the resulting set's members. *)
Definition handleSelectAll (filteredDatasets : list jval) (selectedDatasets : list jval)
  : list jval :=
  if Nat.eqb (List.length selectedDatasets) (List.length filteredDatasets) then []
  else set_of (map (fun d => prop d "id") filteredDatasets).

End DataManager.

(* ------------------------------------------------------------------ *)
(** ** Initial page and helpers for the statements *)

Definition initialEditor : Editor := mkEditor "" false JNull.
Definition initialUploader : Uploader := mkUploader 0 false JNull JNull false.
Definition initialWorld : World := mkWorld initialApp initialEditor initialUploader [] [].

(** *** The page with requests in flight *)

(** A continuation waiting for its response, with the selection its
    closure captured. *)
Inductive Task :=
| PendingDelete (datasetId selectedDataset : jval)
| PendingUpload (file : File) (selectedDataset : jval).

Record Page := mkPage { world : World; tasks : list Task }.

Definition initialPage : Page := mkPage initialWorld [].

Definition resume (srv : Request -> Response) (t : Task) : M unit :=
  match t with
  | PendingDelete datasetId sel => Split.deleteResume srv datasetId sel
  | PendingUpload file sel => Split.uploadResume srv file sel
  end.

(** What the user does, or a response arriving.  Datasets are designated
    by their position in the list the views show. *)
Inductive Event :=
| Drop (file : File)                (* a file dropped on the upload zone *)
| ConfirmDelete (index : nat)       (* DataManager's confirmed delete of a dataset *)
| Select (index : nat)              (* selecting a listed dataset *)
| Arrive (index : nat).             (* the response of a pending request *)

Fixpoint remove_nth {A} (n : nat) (l : list A) : list A :=
  match n, l with
  | _, [] => []
  | O, _ :: rest => rest
  | S n', x :: rest => x :: remove_nth n' rest
  end.

(** One event; [None] when it designates nothing.  An unsupported file is
    rejected by [onDrop] before any [await]. *)
Definition page_event (srv : Request -> Response) (e : Event) (p : Page) : option Page :=
  let w := world p in
  match e with
  | Drop file =>
      if FileUpload.isSupported file
      then Some (mkPage (snd (Split.uploadStart file w))
                        (tasks p ++ [PendingUpload file (selectedDataset (app w))]))
      else Some (mkPage (snd (appOnDrop srv [file] w)) (tasks p))
  | ConfirmDelete i =>
      match nth_error (datasets (app w)) i with
      | Some d => Some (mkPage (snd (Split.deleteStart (prop d "id") w))
                               (tasks p ++ [PendingDelete (prop d "id") (selectedDataset (app w))]))
      | None => None
      end
  | Select i =>
      match nth_error (datasets (app w)) i with
      | Some d => Some (mkPage (snd (AppHandlers.handleDatasetSelect d w)) (tasks p))
      | None => None
      end
  | Arrive i =>
      match nth_error (tasks p) i with
      | Some t => Some (mkPage (snd (resume srv t w)) (remove_nth i (tasks p)))
      | None => None
      end
  end.

Fixpoint page_run (srv : Request -> Response) (es : list Event) (p : Page) : option Page :=
  match es with
  | [] => Some p
  | e :: rest =>
      match page_event srv e p with
      | Some p' => page_run srv rest p'
      | None => None
      end
  end.

(** A response the awaiting code sees as a rejection. *)
Definition is_failure (r : Response) : bool :=
  match r with
  | Resolved _ => false
  | _ => true
  end.

(** Unfold the monad and the API layer down to matches on server
    responses. *)
Ltac run_client :=
  cbv beta iota zeta delta [
    AppHandlers.initializeApp AppHandlers.handleDatasetUpload
    AppHandlers.handleQueryExecution AppHandlers.handleDatasetSelect
    AppHandlers.handleDatasetDelete QueryEditor.executeQuery FileUpload.onDrop
    appOnDrop appExecuteQuery
    ApiService.getConfig ApiService.getDatasets ApiService.getQueryHistory
    ApiService.deleteDataset ApiService.executeQuery ApiService.uploadFile
    ApiService.await_ ApiService.call
    try_finally try_catch bind ret throw modify_app get_app modify_editor
    get_editor modify_uploader notice dot
    set_app set_editor set_uploader log_request log_notice
    send settle handleDatasetUploadWith resume
    Split.deleteStart Split.deleteResume Split.uploadStart Split.uploadSettle
    Split.uploadResume] in *.

(** Split the remaining conditionals of a computed handler. *)
Ltac case_ifs :=
  repeat match goal with
         | |- context [if ?c then _ else _] => destruct c
         end.

(** Close an equation between two computed pages. *)
Ltac same_world := simpl; rewrite <- ?app_assoc; reflexivity.

(* ------------------------------------------------------------------ *)
(** ** Session initialisation *)

(** The fetch outcome of the scenario: configuration unreachable, empty
    dataset list and empty query history. *)
Definition srv_config_down (r : Request) : Response :=
  match r with
  | GetConfig => NetworkFailure
  | GetDatasets => Resolved (JObj [("datasets", JArr [])])
  | GetQueryHistory => Resolved (JObj [("queries", JArr [])])
  | _ => NetworkFailure
  end.

(** C1 (counterexample): with the configuration fetch failing and the two
    other fetches answering empty lists, the initialised page has no
    configuration (still [null]), [isOnboarding] still [false], and the
    dataset and history fetches were never issued. *)
Lemma C1_config_failure_blocks_other_fetches :
  let w := snd (AppHandlers.initializeApp srv_config_down initialWorld) in
  requests w = [GetConfig] /\ config (app w) = JNull /\ isOnboarding (app w) = false.
Proof. vm_compute. repeat split. Qed.

(** C1 (amended): [initializeApp] awaits the fetches one after another
    in a single [try] block.  When the configuration fetch fails, nothing
    else is requested and the page keeps its configuration, datasets,
    history and onboarding flag; only [loading] is cleared and the error is
    logged to the console.  When the configuration arrives but the dataset
    fetch fails, the configuration is stored, the history is not requested
    and the rest of the page is unchanged. *)
Theorem C1_initialize_fail_fast : forall srv w,
  (is_failure (srv GetConfig) = true ->
   AppHandlers.initializeApp srv w
   = (Ok tt, mkWorld (setLoading_ false (app w)) (editor w) (uploader w)
                     (requests w ++ [GetConfig])
                     (notices w ++ [ConsoleError "API Error:";
                                    ConsoleError "Error initializing app:"]))) /\
  (forall c, srv GetConfig = Resolved c ->
   is_failure (srv GetDatasets) = true ->
   AppHandlers.initializeApp srv w
   = (Ok tt, mkWorld (setLoading_ false (setConfig_ c (app w))) (editor w) (uploader w)
                     (requests w ++ [GetConfig; GetDatasets])
                     (notices w ++ [ConsoleError "API Error:";
                                    ConsoleError "Error initializing app:"]))).
Proof.
  intros srv [a e u rq ns]. split.
  - intros H. run_client.
    destruct (srv GetConfig); try discriminate H; destruct a; same_world.
  - intros c Hc H. run_client. rewrite Hc.
    destruct (srv GetDatasets); try discriminate H; destruct a; same_world.
Qed.

Lemma C1_initialize_fail_fast_witness :
  is_failure (srv_config_down GetConfig) = true /\
  AppHandlers.initializeApp srv_config_down initialWorld
  = (Ok tt, mkWorld (setLoading_ false (app initialWorld)) initialEditor initialUploader
                    [GetConfig]
                    [ConsoleError "API Error:"; ConsoleError "Error initializing app:"]).
Proof.
  split; [reflexivity|].
  exact (proj1 (C1_initialize_fail_fast srv_config_down initialWorld) eq_refl).
Defined.

(* ------------------------------------------------------------------ *)
(** ** Query execution *)

(** Scenario D: the query ["Show me all data"] typed, no dataset selected. *)
Definition world_no_selection : World :=
  mkWorld initialApp (mkEditor "Show me all data" false JNull) initialUploader [] [].

(** C2 (counterexample): executing a query with no dataset selected adds
    no record to the query history; the history stays empty. *)
Lemma C2_no_record_on_local_rejection :
  ~ exists record,
      queryHistory (app (snd (appExecuteQuery (fun _ => NetworkFailure) world_no_selection)))
      = record :: queryHistory (app world_no_selection).
Proof.
  intros [record Hr]. vm_compute in Hr. discriminate Hr.
Qed.

(** C2 (amended): when the query text is empty or white space only, or
    no dataset is selected, [executeQuery] issues no request and changes
    nothing but the toasts: one error toast is shown, and the query history
    (like every other part of the page) is left as it was. *)
Theorem C2_local_rejection : forall srv onQueryExecute w,
  String.eqb (trim (query (editor w))) "" = true \/
  truthy (selectedDataset (app w)) = false ->
  QueryEditor.executeQuery srv onQueryExecute w
  = (Ok tt, log_notice (ToastError (JStr (if String.eqb (trim (query (editor w))) ""
                                           then "Please enter a query"
                                           else "Please select a dataset first"))) w).
Proof.
  intros srv onQueryExecute w H. run_client.
  destruct (String.eqb (trim (query (editor w))) "") eqn:Eq.
  - reflexivity.
  - destruct H as [H | H]; [discriminate H|]. rewrite H. reflexivity.
Qed.

Lemma C2_local_rejection_witness :
  (String.eqb (trim (query (editor world_no_selection))) "" = true \/
   truthy (selectedDataset (app world_no_selection)) = false) /\
  appExecuteQuery (fun _ => NetworkFailure) world_no_selection
  = (Ok tt, log_notice (ToastError (JStr "Please select a dataset first")) world_no_selection).
Proof.
  split; [right; reflexivity|].
  exact (C2_local_rejection (fun _ => NetworkFailure) AppHandlers.handleQueryExecution
           world_no_selection (or_intror eq_refl)).
Defined.

(** Scenario of a remote execution: query ["count rows"] on the selected
    dataset ["d1"]. *)
Definition dataset_d1 : jval := JObj [("id", JStr "d1"); ("original_name", JStr "sales.csv")].

Definition world_d1_selected : World :=
  mkWorld (setSelectedDataset_ dataset_d1 (setDatasets_ [dataset_d1] initialApp))
          (mkEditor "count rows" false JNull) initialUploader [] [].

(** The server answers the execution with an error status and a detail. *)
Definition srv_query_rejected (r : Request) : Response :=
  match r with
  | ExecuteQuery _ _ => ServerFailure (JObj [("detail", JStr "Column not found")])
  | _ => NetworkFailure
  end.

(** C6 (counterexample): a query execution the server answers with an
    error status adds nothing to the history. *)
Lemma C6_server_failure_not_recorded :
  let w := snd (appExecuteQuery srv_query_rejected world_d1_selected) in
  requests w = [ExecuteQuery "count rows" (JStr "d1")] /\ queryHistory (app w) = [].
Proof. vm_compute. split; reflexivity. Qed.

(** C6 (amended): once the local checks pass, the body of every 2xx
    response to the execution request is prepended to the history,
    whether it reports [success: true] or a failed query with its error.
    A response with an error status, or no response, records nothing: the
    [App] state, history included, is unchanged, the editor's result is
    [null] and it is no longer executing, the interceptor and the editor
    log a console error each and the toast "Failed to execute query" is
    shown. *)
Theorem C6_response_recorded : forall srv w,
  String.eqb (trim (query (editor w))) "" = false ->
  truthy (selectedDataset (app w)) = true ->
  let r := srv (ExecuteQuery (query (editor w)) (prop (selectedDataset (app w)) "id")) in
  let w' := snd (appExecuteQuery srv w) in
  (forall body, r = Resolved body ->
     queryHistory (app w') = body :: queryHistory (app w)) /\
  (is_failure r = true ->
     app w' = app w /\
     queryResult (editor w') = JNull /\
     isExecuting (editor w') = false /\
     notices w' = (notices w ++ [ConsoleError "API Error:";
                                 ToastError (JStr "Failed to execute query");
                                 ConsoleError "Query execution error:"])%list).
Proof.
  intros srv [a e u rq ns] Hq Hs r w'. subst r w'. simpl in Hq, Hs.
  unfold appExecuteQuery. run_client. simpl. rewrite Hq, Hs.
  destruct (selectedDataset a) eqn:Esel; try discriminate Hs; simpl;
  (destruct (srv (ExecuteQuery (query e) _)) as [body|body|];
   [ split; [intros body0 Hb; injection Hb as <-; destruct body; simpl; case_ifs; reflexivity
            | discriminate]
   | split; [discriminate | intros _; simpl; rewrite <- !app_assoc; repeat split]
   | split; [discriminate | intros _; simpl; rewrite <- !app_assoc; repeat split] ]).
Qed.

Lemma C6_response_recorded_witness :
  String.eqb (trim (query (editor world_d1_selected))) "" = false /\
  truthy (selectedDataset (app world_d1_selected)) = true /\
  queryHistory (app (snd (appExecuteQuery
    (fun _ => Resolved (JObj [("success", JBool false); ("error", JStr "no column")]))
    world_d1_selected)))
  = [JObj [("success", JBool false); ("error", JStr "no column")]].
Proof.
  split; [reflexivity|]. split; [reflexivity|].
  exact (proj1 (C6_response_recorded
                  (fun _ => Resolved (JObj [("success", JBool false); ("error", JStr "no column")]))
                  world_d1_selected eq_refl eq_refl) _ eq_refl).
Defined.

(* ------------------------------------------------------------------ *)
(** ** Upload *)

(** The text after the last ['.'] of a file name, [None] when the name
    has no ['.'] (the reading of "the file's extension"). *)
Fixpoint ext_after_final_dot (s : string) : option string :=
  match s with
  | EmptyString => None
  | String c rest =>
      match ext_after_final_dot rest with
      | Some e => Some e
      | None => if Ascii.eqb c "." then Some rest else None
      end
  end.

Lemma string_app_nil_r : forall s, (s ++ "")%string = s.
Proof. induction s as [|c s IH]; simpl; [reflexivity | now rewrite IH]. Qed.

Lemma string_app_assoc : forall s1 s2 s3,
  ((s1 ++ s2) ++ s3)%string = (s1 ++ (s2 ++ s3))%string.
Proof. induction s1 as [|c s IH]; intros; simpl; [reflexivity | now rewrite IH]. Qed.

Lemma split_go_not_nil : forall sep s acc, split_go sep s acc <> [].
Proof.
  intros sep s. induction s as [|c s IH]; intros acc; simpl; [discriminate|].
  destruct (Ascii.eqb c sep); [discriminate | apply IH].
Qed.

Lemma last_cons_not_nil : forall (a d : string) l, l <> [] -> last (a :: l) d = last l d.
Proof. intros a d [|b l] H; [contradiction | reflexivity]. Qed.

Lemma last_split_go : forall s acc,
  last (split_go "." s acc) ""
  = match ext_after_final_dot s with Some e => e | None => (acc ++ s)%string end.
Proof.
  induction s as [|c s IH]; intros acc; simpl.
  - now rewrite string_app_nil_r.
  - destruct (Ascii.eqb c ".") eqn:Ec.
    + rewrite last_cons_not_nil by apply split_go_not_nil.
      rewrite IH. destruct (ext_after_final_dot s); reflexivity.
    + rewrite IH. rewrite string_app_assoc. destruct (ext_after_final_dot s); reflexivity.
Qed.

(** The checked extension is the lowercased text after the last ['.'],
    or the whole lowercased name when it has no ['.']. *)
Lemma fileExtension_spec : forall file,
  FileUpload.fileExtension file
  = toLowerCase (match ext_after_final_dot (name file) with
                 | Some e => e
                 | None => name file
                 end).
Proof.
  intros [n]. unfold FileUpload.fileExtension, split, pop. simpl.
  rewrite last_split_go. reflexivity.
Qed.

Lemma isSupported_spec : forall file,
  FileUpload.isSupported file = true <->
  In (FileUpload.fileExtension file) ["csv"; "json"; "xlsx"; "xls"].
Proof.
  intros file. unfold FileUpload.isSupported, FileUpload.supportedTypes.
  rewrite existsb_exists. split.
  - intros [x [Hin Hx]]. apply String.eqb_eq in Hx. now subst x.
  - intros Hin. exists (FileUpload.fileExtension file). split; [exact Hin|].
    apply String.eqb_refl.
Qed.

Definition unsupported_toast : Notice :=
  ToastError (JStr "Unsupported file type. Please upload CSV, JSON, or Excel files.").

Lemma onDrop_reject : forall srv onUpload w file rest,
  FileUpload.isSupported file = false ->
  FileUpload.onDrop srv onUpload (file :: rest) w = (Ok tt, log_notice unsupported_toast w).
Proof. intros srv onUpload w file rest H. run_client. now rewrite H. Qed.

Lemma appOnDrop_accept_requests : forall srv w file rest,
  FileUpload.isSupported file = true ->
  requests (snd (appOnDrop srv (file :: rest) w)) = (requests w ++ [UploadFile (name file)])%list.
Proof.
  intros srv [a e u rq ns] file rest H. run_client. rewrite H. simpl.
  destruct (srv (UploadFile (name file))) as [body|body|]; simpl.
  - destruct body; simpl; case_ifs; reflexivity.
  - case_ifs; reflexivity.
  - reflexivity.
Qed.

Lemma appOnDrop_config_independent : forall srv w c files,
  appOnDrop srv files (set_app (setConfig_ c (app w)) w)
  = (fst (appOnDrop srv files w),
     set_app (setConfig_ c (app (snd (appOnDrop srv files w)))) (snd (appOnDrop srv files w))).
Proof.
  intros srv [[v ds sel ld cf qh tp ob] e u rq ns] c [|file rest]; [reflexivity|].
  run_client. simpl.
  destruct (FileUpload.isSupported file); simpl; [|reflexivity].
  destruct (srv (UploadFile (name file))) as [body|body|]; simpl.
  - destruct body; simpl; case_ifs; reflexivity.
  - case_ifs; reflexivity.
  - reflexivity.
Qed.

(** A page whose loaded configuration allows only CSV and JSON uploads. *)
Definition world_csv_json_config : World :=
  set_app (setConfig_ (JObj [("allowed_file_types", JArr [JStr "csv"; JStr "json"])]) initialApp)
          initialWorld.

(** A page whose loaded configuration allows plain-text uploads. *)
Definition world_txt_config : World :=
  set_app (setConfig_ (JObj [("allowed_file_types", JArr [JStr "txt"])]) initialApp)
          initialWorld.

(** C3 (counterexample): with the configured allow-list [csv, json], the
    file [data.xlsx] is not rejected but uploaded; with the configured
    allow-list [txt], the file [notes.txt] is rejected. *)
Lemma C3_config_allow_list_ignored :
  requests (snd (appOnDrop (fun _ => NetworkFailure) [mkFile "data.xlsx"] world_csv_json_config))
  = [UploadFile "data.xlsx"] /\
  appOnDrop (fun _ => NetworkFailure) [mkFile "notes.txt"] world_txt_config
  = (Ok tt, log_notice unsupported_toast world_txt_config).
Proof. split; vm_compute; reflexivity. Qed.

(** C3 (amended): the extension check compares the lowercased extension
    with the fixed list csv, json, xlsx, xls.  A file outside it is
    rejected locally: one error toast, no request, the dataset sequence
    and the rest of the page unchanged.  A file in it passes and exactly
    one upload request is issued for it. *)
Theorem C3_upload_extension_check : forall srv w file rest,
  (FileUpload.isSupported file = true <->
   In (FileUpload.fileExtension file) ["csv"; "json"; "xlsx"; "xls"]) /\
  (FileUpload.isSupported file = false ->
   appOnDrop srv (file :: rest) w = (Ok tt, log_notice unsupported_toast w)) /\
  (FileUpload.isSupported file = true ->
   requests (snd (appOnDrop srv (file :: rest) w)) = (requests w ++ [UploadFile (name file)])%list).
Proof.
  intros srv w file rest. split; [apply isSupported_spec|]. split.
  - apply onDrop_reject.
  - apply appOnDrop_accept_requests.
Qed.

Lemma C3_upload_extension_check_witness :
  FileUpload.isSupported (mkFile "data.txt") = false /\
  appOnDrop (fun _ => NetworkFailure) [mkFile "data.txt"] world_csv_json_config
  = (Ok tt, log_notice unsupported_toast world_csv_json_config).
Proof.
  split; [reflexivity|].
  exact (proj1 (proj2 (C3_upload_extension_check (fun _ => NetworkFailure)
                         world_csv_json_config (mkFile "data.txt") [])) eq_refl).
Defined.

(** C10 (counterexample): a file named [CSV] has no text after a final
    ['.'], yet it passes the check and is uploaded. *)
Lemma C10_dotless_name_accepted :
  ext_after_final_dot "CSV" = None /\
  FileUpload.isSupported (mkFile "CSV") = true /\
  requests (snd (appOnDrop (fun _ => NetworkFailure) [mkFile "CSV"] initialWorld))
  = [UploadFile "CSV"].
Proof. vm_compute. repeat split. Qed.

(** C10 (amended): the check accepts exactly the names whose lowercased
    text after the final ['.'] (the whole name when there is no ['.']) is
    csv, json, xlsx or xls; a rejected file issues no request, an accepted
    one issues its upload request; and the outcome of a drop does not
    depend on the loaded configuration. *)
Theorem C10_fixed_extension_check : forall srv w c file rest,
  (FileUpload.isSupported file = true <->
   In (toLowerCase (match ext_after_final_dot (name file) with
                    | Some e => e
                    | None => name file
                    end))
      ["csv"; "json"; "xlsx"; "xls"]) /\
  (FileUpload.isSupported file = false ->
   requests (snd (appOnDrop srv (file :: rest) w)) = requests w) /\
  (FileUpload.isSupported file = true ->
   requests (snd (appOnDrop srv (file :: rest) w)) = (requests w ++ [UploadFile (name file)])%list) /\
  appOnDrop srv (file :: rest) (set_app (setConfig_ c (app w)) w)
  = (fst (appOnDrop srv (file :: rest) w),
     set_app (setConfig_ c (app (snd (appOnDrop srv (file :: rest) w))))
             (snd (appOnDrop srv (file :: rest) w))).
Proof.
  intros srv w c file rest. split; [|split; [|split]].
  - rewrite <- fileExtension_spec. apply isSupported_spec.
  - intros H. unfold appOnDrop. rewrite onDrop_reject by exact H. reflexivity.
  - apply appOnDrop_accept_requests.
  - apply appOnDrop_config_independent.
Qed.

Lemma C10_fixed_extension_check_witness :
  FileUpload.isSupported (mkFile "report.XLSX") = true /\
  requests (snd (appOnDrop (fun _ => NetworkFailure) [mkFile "report.XLSX"] world_csv_json_config))
  = [UploadFile "report.XLSX"].
Proof.
  split; [reflexivity|].
  exact (proj1 (proj2 (proj2 (C10_fixed_extension_check (fun _ => NetworkFailure)
                                world_csv_json_config JNull (mkFile "report.XLSX") [])))
               eq_refl).
Defined.

(* ------------------------------------------------------------------ *)
(** ** Dataset collection *)

(** [prev.filter(d => d.id !== datasetId)] *)
Definition without_id (datasetId : jval) (l : list jval) : list jval :=
  filter (fun d => negb (strict_eq (prop d "id") datasetId)) l.

Lemma handleDatasetDelete_result : forall srv datasetId w,
  AppHandlers.handleDatasetDelete srv datasetId w
  = (Ok tt,
     match srv (DeleteDataset datasetId) with
     | Resolved _ =>
         mkWorld (let a1 := setDatasets_ (without_id datasetId (datasets (app w))) (app w) in
                  if strict_eq (prop (selectedDataset (app w)) "id") datasetId
                  then setSelectedDataset_ JNull a1 else a1)
                 (editor w) (uploader w) (requests w ++ [DeleteDataset datasetId]) (notices w)
     | _ =>
         mkWorld (app w) (editor w) (uploader w) (requests w ++ [DeleteDataset datasetId])
                 (notices w ++ [ConsoleError "API Error:"; ConsoleError "Error deleting dataset:"])
     end).
Proof.
  intros srv datasetId [a e u rq ns]. run_client. simpl.
  destruct (srv (DeleteDataset datasetId)); simpl.
  - case_ifs; reflexivity.
  - same_world.
  - same_world.
Qed.

Lemma handleDatasetUpload_result : forall d w,
  AppHandlers.handleDatasetUpload d w
  = (Ok tt, set_app (let a1 := setDatasets_ (d :: datasets (app w)) (app w) in
                     if truthy (selectedDataset (app w)) then a1
                     else setSelectedDataset_ d a1) w).
Proof.
  intros d [a e u rq ns]. run_client. simpl.
  destruct (truthy (selectedDataset a)); reflexivity.
Qed.

(** Responses arriving before the next event: the atomic handlers are the
    split ones run back to back, the continuation seeing the selection
    of the render the request was started in. *)
Lemma handleDatasetDelete_split : forall srv datasetId w,
  AppHandlers.handleDatasetDelete srv datasetId w
  = Split.deleteResume srv datasetId (selectedDataset (app w))
      (snd (Split.deleteStart datasetId w)).
Proof.
  intros srv datasetId w. run_client. simpl.
  destruct (srv (DeleteDataset datasetId)); simpl; reflexivity.
Qed.

Lemma appOnDrop_split : forall srv file rest w,
  FileUpload.isSupported file = true ->
  appOnDrop srv (file :: rest) w
  = Split.uploadResume srv file (selectedDataset (app w))
      (snd (Split.uploadStart file w)).
Proof.
  intros srv file rest w Hs. run_client. rewrite Hs. simpl.
  destruct (srv (UploadFile (name file))) as [d|d|]; simpl.
  - destruct d; simpl; reflexivity.
  - case_ifs; reflexivity.
  - case_ifs; reflexivity.
Qed.

Lemma deleteStart_app : forall datasetId w,
  app (snd (Split.deleteStart datasetId w)) = app w.
Proof. reflexivity. Qed.

Lemma uploadStart_app : forall file w,
  app (snd (Split.uploadStart file w)) = app w.
Proof. reflexivity. Qed.

Lemma deleteResume_app : forall srv datasetId sel w,
  app (snd (Split.deleteResume srv datasetId sel w))
  = match srv (DeleteDataset datasetId) with
    | Resolved _ =>
        let a1 := setDatasets_ (without_id datasetId (datasets (app w))) (app w) in
        if strict_eq (prop sel "id") datasetId then setSelectedDataset_ JNull a1 else a1
    | _ => app w
    end.
Proof.
  intros srv datasetId sel [a e u rq ns]. run_client. simpl.
  destruct (srv (DeleteDataset datasetId)); simpl; [case_ifs|..]; reflexivity.
Qed.

(** The [App] state after an upload response arrives: a 2xx body that
    is an object (anything but [null] and [undefined]) is added, with the
    captured selection deciding whether it is selected. *)
Lemma uploadResume_app : forall srv file sel w,
  app (snd (Split.uploadResume srv file sel w))
  = match srv (UploadFile (name file)) with
    | Resolved JNull | Resolved JUndefined => app w
    | Resolved body =>
        let a1 := setDatasets_ (body :: datasets (app w)) (app w) in
        if truthy sel then a1 else setSelectedDataset_ body a1
    | _ => app w
    end.
Proof.
  intros srv file sel [a e u rq ns]. run_client. simpl.
  destruct (srv (UploadFile (name file))) as [d|d|]; simpl.
  - destruct d; simpl; destruct (truthy sel); reflexivity.
  - case_ifs; reflexivity.
  - case_ifs; reflexivity.
Qed.

(** The await of [apiService] is a request sent and its response settled. *)
Lemma await_split : forall srv r,
  ApiService.await_ srv r = (send r ;; settle (srv r)).
Proof. reflexivity. Qed.

(** *** Pages with requests in flight

    The server of the page scenarios: uploads of [a.csv], [b.csv] and any
    other file give the datasets [d1], [d2] and [d3], every delete is
    confirmed. *)
Definition dataset_d2 : jval := JObj [("id", JStr "d2"); ("original_name", JStr "b.csv")].
Definition dataset_d3 : jval := JObj [("id", JStr "d3"); ("original_name", JStr "c.csv")].

Definition srv_pages (r : Request) : Response :=
  match r with
  | UploadFile n =>
      if String.eqb n "a.csv" then Resolved dataset_d1
      else if String.eqb n "b.csv" then Resolved dataset_d2
      else Resolved dataset_d3
  | DeleteDataset _ => Resolved (JObj [])
  | _ => NetworkFailure
  end.

(** [a.csv] and [b.csv] uploaded one after the other: the list is
    [[d2; d1]] and [d1], uploaded first, is selected. *)
Definition two_uploads : list Event :=
  [Drop (mkFile "a.csv"); Arrive 0; Drop (mkFile "b.csv"); Arrive 0].

(** The list and the selection of a page. *)
Definition shown (p : option Page) : option (list jval * jval) :=
  option_map (fun p => (datasets (app (world p)), selectedDataset (app (world p)))) p.

(** Runs in which every response arrives before the next user event. *)
Inductive serial : list Event -> Prop :=
| serial_nil : serial []
| serial_reject : forall file es,
    FileUpload.isSupported file = false -> serial es -> serial (Drop file :: es)
| serial_upload : forall file es,
    FileUpload.isSupported file = true -> serial es -> serial (Drop file :: Arrive 0 :: es)
| serial_delete : forall i es, serial es -> serial (ConfirmDelete i :: Arrive 0 :: es)
| serial_select : forall i es, serial es -> serial (Select i :: es).



(** Scenario E: the selected dataset [d1] is deleted, the history holds a
    record that refers to it. *)
Definition record_on_d1 : jval :=
  JObj [("query", JStr "count rows"); ("dataset_id", JStr "d1"); ("success", JBool true)].

Definition world_d1_with_history : World :=
  set_app (setQueryHistory_ [record_on_d1] (app world_d1_selected)) world_d1_selected.


(** Selection integrity: no selection, or a selection whose id is the id
    of a dataset in the sequence. *)
Definition selection_ok (a : App) : Prop :=
  selectedDataset a = JNull \/
  exists d, In d (datasets a) /\ prop d "id" = prop (selectedDataset a) "id".

Lemma strict_eq_congr : forall x y z, x = y -> strict_eq x z = strict_eq y z.
Proof. intros x y z ->. reflexivity. Qed.

Lemma remove_preserves_selection : forall srv datasetId w,
  selection_ok (app w) ->
  selection_ok (app (snd (AppHandlers.handleDatasetDelete srv datasetId w))).
Proof.
  intros srv datasetId w Hok. rewrite handleDatasetDelete_result. simpl.
  destruct (srv (DeleteDataset datasetId)); simpl; [|exact Hok|exact Hok].
  destruct (strict_eq (prop (selectedDataset (app w)) "id") datasetId) eqn:Esel; simpl.
  - left. reflexivity.
  - destruct Hok as [Hnull | [d' [Hin Hid]]]; [left; exact Hnull|].
    right. exists d'. split; [|exact Hid].
    unfold without_id. apply filter_In. split; [exact Hin|].
    rewrite (strict_eq_congr _ _ _ Hid), Esel. reflexivity.
Qed.

Lemma upload_preserves_selection : forall srv file w,
  selection_ok (app w) ->
  selection_ok (app (snd (Split.uploadResume srv file (selectedDataset (app w)) w))).
Proof.
  intros srv file w Hok. rewrite uploadResume_app.
  destruct (srv (UploadFile (name file))) as [body| |]; try exact Hok.
  assert (Hadd : selection_ok
    (let a1 := setDatasets_ (body :: datasets (app w)) (app w) in
     if truthy (selectedDataset (app w)) then a1 else setSelectedDataset_ body a1)).
  { destruct (truthy (selectedDataset (app w))); simpl.
    - destruct Hok as [Hnull | [d' [Hin Hid]]]; [left; exact Hnull|].
      right. exists d'. split; [right; exact Hin | exact Hid].
    - right. exists body. split; [left; reflexivity | reflexivity]. }
  destruct body; solve [exact Hok | exact Hadd].
Qed.

Lemma select_member_preserves_selection : forall d w,
  (exists d', In d' (datasets (app w)) /\ prop d' "id" = prop d "id") ->
  selection_ok (app (snd (AppHandlers.handleDatasetSelect d w))).
Proof. intros d w Hd. right. exact Hd. Qed.

Lemma reject_keeps_app : forall srv file rest w,
  FileUpload.isSupported file = false -> app (snd (appOnDrop srv (file :: rest) w)) = app w.
Proof. intros srv file rest w Hs. run_client. rewrite Hs. reflexivity. Qed.

(** Serial runs from a page with nothing in flight keep the selection
    integrity and leave nothing in flight. *)
Lemma serial_run_ok : forall srv es p0 p,
  serial es -> tasks p0 = [] -> selection_ok (app (world p0)) ->
  page_run srv es p0 = Some p -> selection_ok (app (world p)) /\ tasks p = [].
Proof.
  intros srv es p0 p Hs. revert p0.
  induction Hs as [| file es Hsup Hs IH | file es Hsup Hs IH | i es Hs IH | i es Hs IH];
    intros [w ts] Ht Hok Hrun; simpl in Ht, Hok; subst ts.
  - injection Hrun as <-. split; [exact Hok | reflexivity].
  - assert (E : page_event srv (Drop file) (mkPage w [])
                = Some (mkPage (snd (appOnDrop srv [file] w)) [])).
    { unfold page_event. cbn [world tasks]. rewrite Hsup. reflexivity. }
    cbn [page_run] in Hrun. rewrite E in Hrun.
    refine (IH (mkPage _ []) eq_refl _ Hrun). cbn [world].
    rewrite reject_keeps_app by exact Hsup. exact Hok.
  - assert (E : page_run srv (Drop file :: Arrive 0 :: es) (mkPage w [])
                = page_run srv es
                    (mkPage (snd (Split.uploadResume srv file (selectedDataset (app w))
                                    (snd (Split.uploadStart file w)))) [])).
    { cbn [page_run]. unfold page_event at 1. cbn [world tasks]. rewrite Hsup. reflexivity. }
    rewrite E in Hrun.
    refine (IH (mkPage _ []) eq_refl _ Hrun). cbn [world].
    rewrite <- (uploadStart_app file w) at 1.
    apply upload_preserves_selection. rewrite uploadStart_app. exact Hok.
  - cbn [page_run] in Hrun. unfold page_event at 1 in Hrun. cbn [world tasks] in Hrun.
    destruct (nth_error (datasets (app w)) i) as [d|]; [|discriminate Hrun].
    refine (IH (mkPage (snd (Split.deleteResume srv (prop d "id") (selectedDataset (app w))
                               (snd (Split.deleteStart (prop d "id") w)))) [])
               eq_refl _ Hrun).
    cbn [world]. rewrite <- handleDatasetDelete_split. apply remove_preserves_selection, Hok.
  - cbn [page_run] in Hrun. unfold page_event in Hrun. cbn [world tasks] in Hrun.
    destruct (nth_error (datasets (app w)) i) as [d|] eqn:Ed; [|discriminate Hrun].
    refine (IH (mkPage _ []) eq_refl _ Hrun). cbn [world].
    apply select_member_preserves_selection. exists d.
    split; [apply (nth_error_In _ i Ed) | reflexivity].
Qed.

(** The selection of a dataset that is not in the sequence. *)
Definition ghost_dataset : jval := JObj [("id", JStr "ghost")].



(** Two uploads, the delete of [d2] confirmed, then [d1] selected. *)
Definition serial_session : list Event :=
  two_uploads ++ [ConfirmDelete 0; Arrive 0; Select 0].


(** Scenario B: uploading [data.csv] on the initial page prepends the
    returned dataset and selects it. *)
Example upload_csv_selects_new_dataset :
  let w := snd (appOnDrop (fun _ => Resolved dataset_d1) [mkFile "data.csv"] initialWorld) in
  datasets (app w) = [dataset_d1] /\ selectedDataset (app w) = dataset_d1.
Proof. vm_compute. split; reflexivity. Qed.




(* ------------------------------------------------------------------ *)
(** ** Tutorial progression *)

Module TutorialFacts.
Import Tutorial.

Lemma isLessonCompleted_spec : forall st l ls,
  isLessonCompleted st l ls = true <-> In (lessonKey l ls) (completedLessons st).
Proof.
  intros st l ls. unfold isLessonCompleted. rewrite existsb_exists. split.
  - intros [x [Hin Hx]]. apply String.eqb_eq in Hx. now subst x.
  - intros Hin. exists (lessonKey l ls). split; [exact Hin | apply String.eqb_refl].
Qed.

Lemma set_add_spec : forall k s x, In x (set_add k s) <-> x = k \/ In x s.
Proof.
  intros k s x. unfold set_add.
  destruct (existsb (String.eqb k) s) eqn:E.
  - apply existsb_exists in E as [y [Hy Hk]]. apply String.eqb_eq in Hk. subst y.
    split; [right; exact H | intros [-> | H]; assumption].
  - rewrite in_app_iff. simpl. split.
    + intros [H | [H | []]]; [right; exact H | left; symmetry; exact H].
    + intros [H | H]; [right; left; symmetry; exact H | left; exact H].
Qed.

(** The catalog: levels 1 to 4, each found by its id. *)
Lemma findLevel_cases : forall n lv, findLevel n = Some lv ->
  (n = 1 \/ n = 2 \/ n = 3 \/ n = 4) /\ level_id lv = n.
Proof.
  intros n lv H.
  destruct n as [|[|[|[|[|n]]]]]; simpl in H; try discriminate H;
    injection H as <-; split; simpl; auto.
Qed.

End TutorialFacts.

(** C8: level 1 is always unlocked; a level [k > 1] of the catalog is
    unlocked exactly when every lesson of level [k - 1]'s lesson list is in
    the completed set. *)
Theorem C8_level_unlock :
  (forall st, Tutorial.isLevelUnlocked st 1 = true) /\
  (forall st k, In k (map Tutorial.level_id Tutorial.tutorialLevels) -> 1 < k ->
     exists previousLevel,
       Tutorial.findLevel (k - 1) = Some previousLevel /\
       Tutorial.level_id previousLevel = k - 1 /\
       (Tutorial.isLevelUnlocked st k = true <->
        forall lesson, In lesson (Tutorial.lessons previousLevel) ->
          In (Tutorial.lessonKey (k - 1) (Tutorial.lesson_id lesson))
             (Tutorial.completedLessons st))).
Proof.
  split; [reflexivity|].
  intros st k Hk Hgt.
  assert (Hcat : k = 2 \/ k = 3 \/ k = 4).
  { simpl in Hk. lia. }
  assert (Hfind : exists lv, Tutorial.findLevel (k - 1) = Some lv).
  { destruct Hcat as [-> | [-> | ->]]; eexists; reflexivity. }
  destruct Hfind as [lv Hlv]. exists lv.
  split; [exact Hlv|]. split; [exact (proj2 (TutorialFacts.findLevel_cases _ _ Hlv))|].
  unfold Tutorial.isLevelUnlocked.
  replace (Nat.eqb k 1) with false by (symmetry; apply Nat.eqb_neq; lia).
  rewrite Hlv, forallb_forall. split.
  - intros H lesson Hin. apply TutorialFacts.isLessonCompleted_spec, H, Hin.
  - intros H lesson Hin. apply TutorialFacts.isLessonCompleted_spec, H, Hin.
Qed.

Lemma C8_level_unlock_witness :
  In 2 (map Tutorial.level_id Tutorial.tutorialLevels) /\ 1 < 2 /\
  (Tutorial.isLevelUnlocked (Tutorial.mkTutor 1 3 ["1-1"; "1-2"; "1-3"]) 2 = true <->
   forall lesson, In lesson [Tutorial.mkLesson 1 "What is Sankalp?";
                             Tutorial.mkLesson 2 "Basic Data Operations";
                             Tutorial.mkLesson 3 "Understanding Results"] ->
     In (Tutorial.lessonKey 1 (Tutorial.lesson_id lesson)) ["1-1"; "1-2"; "1-3"]).
Proof.
  split; [simpl; auto|]. split; [lia|].
  destruct (proj2 C8_level_unlock (Tutorial.mkTutor 1 3 ["1-1"; "1-2"; "1-3"]) 2
              ltac:(simpl; auto) ltac:(lia)) as [lv [Hlv [_ Hiff]]].
  vm_compute in Hlv. injection Hlv as <-. exact Hiff.
Defined.

(** Completing the three lessons of level 1 from the start. *)
Definition after_level_1 : option Tutorial.Tutor :=
  match Tutorial.completeLesson Tutorial.initialTutor with
  | Some s1 => match Tutorial.completeLesson s1 with
               | Some s2 => Tutorial.completeLesson s2
               | None => None
               end
  | None => None
  end.

(** C9: [completeLesson] adds the current lesson's key to the completed
    set, then moves to the next lesson while lessons remain in the level,
    else to the first lesson of the next level when there is one, else
    stays.  From the start, level 2 is locked; after the three lessons of
    level 1 it is unlocked and the pointer is at level 2, lesson 1. *)
Theorem C9_complete_lesson :
  (forall st lv, Tutorial.findLevel (Tutorial.currentLevel st) = Some lv ->
     exists st', Tutorial.completeLesson st = Some st' /\
       (forall x, In x (Tutorial.completedLessons st') <->
                  x = Tutorial.lessonKey (Tutorial.currentLevel st) (Tutorial.currentLesson st) \/
                  In x (Tutorial.completedLessons st)) /\
       (if Nat.ltb (Tutorial.currentLesson st) (List.length (Tutorial.lessons lv))
        then Tutorial.currentLevel st' = Tutorial.currentLevel st /\
             Tutorial.currentLesson st' = Tutorial.currentLesson st + 1
        else match Tutorial.findLevel (Tutorial.currentLevel st + 1) with
             | Some nextLevel =>
                 Tutorial.currentLevel st' = Tutorial.level_id nextLevel /\
                 Some (Tutorial.currentLesson st')
                 = option_map Tutorial.lesson_id (hd_error (Tutorial.lessons nextLevel))
             | None =>
                 Tutorial.currentLevel st' = Tutorial.currentLevel st /\
                 Tutorial.currentLesson st' = Tutorial.currentLesson st
             end)) /\
  (Tutorial.isLevelUnlocked Tutorial.initialTutor 2 = false /\
   exists st3, after_level_1 = Some st3 /\
     Tutorial.isLevelUnlocked st3 2 = true /\
     Tutorial.currentLevel st3 = 2 /\ Tutorial.currentLesson st3 = 1).
Proof.
  split.
  - intros [lvl lsn done] lv Hlv. simpl in Hlv |- *.
    pose proof (TutorialFacts.findLevel_cases _ _ Hlv) as [Hcat _].
    destruct Hcat as [-> | [-> | [-> | ->]]]; injection Hlv as <-;
      unfold Tutorial.completeLesson; simpl;
      destruct (Nat.ltb lsn _);
      (eexists; split; [reflexivity|];
       split; [intros x; apply TutorialFacts.set_add_spec | simpl; auto]).
  - split; [reflexivity|]. eexists. split; [reflexivity|]. vm_compute. auto.
Qed.

Lemma C9_complete_lesson_witness :
  Tutorial.findLevel (Tutorial.currentLevel (Tutorial.mkTutor 1 3 ["1-1"; "1-2"]))
  = Some (hd (Tutorial.mkLevel 0 "" []) Tutorial.tutorialLevels) /\
  Tutorial.completeLesson (Tutorial.mkTutor 1 3 ["1-1"; "1-2"])
  = Some (Tutorial.mkTutor 2 1 ["1-1"; "1-2"; "1-3"]).
Proof.
  split; [reflexivity|].
  destruct (proj1 C9_complete_lesson (Tutorial.mkTutor 1 3 ["1-1"; "1-2"])
              (hd (Tutorial.mkLevel 0 "" []) Tutorial.tutorialLevels) eq_refl)
    as [st' [Hst' _]].
  rewrite Hst'. vm_compute in Hst'. injection Hst' as <-. reflexivity.
Defined.

(* ------------------------------------------------------------------ *)
(** ** Further properties of the handlers *)

(** [initializeApp] never rejects: its [catch] takes every failure, and
    its [finally] always clears [loading]. *)
Lemma initializeApp_never_rejects : forall srv w,
  fst (AppHandlers.initializeApp srv w) = Ok tt /\
  loading (app (snd (AppHandlers.initializeApp srv w))) = false.
Proof.
  intros srv w. unfold AppHandlers.initializeApp, try_finally, try_catch.
  match goal with |- context [match ?m w with _ => _ end] => destruct (m w) as [[[]|e] w'] end;
    simpl; [split; reflexivity|].
  split; reflexivity.
Qed.

(** When the three fetches succeed with bodies [{datasets: [...]}] and
    [{queries: [...]}], [apiService] already unwraps [.datasets] and
    [.queries], and the [App] reads [.datasets] / [.queries] a second time,
    on the arrays: both read [undefined].  The page then stores the
    configuration, an empty dataset list and an empty history, and enters
    onboarding, whatever the lists hold. *)
Lemma initializeApp_success_drops_lists : forall srv w c ds qs,
  srv GetConfig = Resolved c ->
  srv GetDatasets = Resolved (JObj [("datasets", JArr ds)]) ->
  srv GetQueryHistory = Resolved (JObj [("queries", JArr qs)]) ->
  AppHandlers.initializeApp srv w
  = (Ok tt, mkWorld (mkApp (currentView (app w)) [] (selectedDataset (app w)) false c []
                           (tutorialProgress (app w)) true)
                    (editor w) (uploader w)
                    (requests w ++ [GetConfig; GetDatasets; GetQueryHistory])
                    (notices w)).
Proof.
  intros srv [a e u rq ns] c ds qs Hc Hd Hq. run_client. rewrite Hc, Hd, Hq.
  destruct a; simpl. rewrite <- !app_assoc. reflexivity.
Qed.

(** A server answering the three initial fetches. *)
Definition srv_all_ok (r : Request) : Response :=
  match r with
  | GetConfig => Resolved (JObj [("max_file_size", JNum 100)])
  | GetDatasets => Resolved (JObj [("datasets", JArr [dataset_d1])])
  | GetQueryHistory => Resolved (JObj [("queries", JArr [record_on_d1])])
  | _ => NetworkFailure
  end.

(** A [try] / [catch] / [finally] whose handler and cleanup do not throw
    does not reject. *)
Lemma try_catch_finally_resolves : forall (m : M unit) h f w,
  (forall e w, fst (h e w) = Ok tt) -> (forall w, fst (f w) = Ok tt) ->
  fst (try_finally (try_catch m h) f w) = Ok tt.
Proof.
  intros m h f w Hh Hf. unfold try_finally, try_catch.
  destruct (m w) as [[[]|e] w1].
  - specialize (Hf w1). destruct (f w1) as [[[]|e2] w2]; [reflexivity | discriminate Hf].
  - specialize (Hh e w1). destruct (h e w1) as [[[]|e'] w2]; [|discriminate Hh].
    specialize (Hf w2). destruct (f w2) as [[[]|e3] w3]; [reflexivity | discriminate Hf].
Qed.

(** Once the query and the selection pass the editor's checks, the
    request is issued with the selection's id, the editor always ends
    not executing, and its result panel holds the 2xx body, or [null] when
    the request failed; the handler never rejects. *)
Lemma executeQuery_cleanup : forall srv w,
  fst (appExecuteQuery srv w) = Ok tt /\
  (String.eqb (trim (query (editor w))) "" = false ->
   truthy (selectedDataset (app w)) = true ->
   let w' := snd (appExecuteQuery srv w) in
   requests w' = (requests w ++ [ExecuteQuery (query (editor w)) (prop (selectedDataset (app w)) "id")])%list /\
   isExecuting (editor w') = false /\
   queryResult (editor w')
   = match srv (ExecuteQuery (query (editor w)) (prop (selectedDataset (app w)) "id")) with
     | Resolved d => d
     | _ => JNull
     end).
Proof.
  intros srv w. split.
  - unfold appExecuteQuery, QueryEditor.executeQuery, bind, get_editor, get_app.
    destruct (String.eqb (trim (query (editor w))) ""); [reflexivity|].
    destruct (negb (truthy (selectedDataset (app w)))); [reflexivity|].
    apply try_catch_finally_resolves; reflexivity.
  - destruct w as [[cv ds sel ld cf qh tp ob] [q ie qr] u rq ns]. simpl.
    intros Hq Hs. run_client. simpl. rewrite Hq, Hs. simpl.
    destruct sel; try discriminate Hs; simpl;
      destruct (srv (ExecuteQuery q _)) as [d| |]; simpl;
      try (destruct d; simpl); try (case_ifs; simpl);
      repeat split.
Qed.

(** An accepted file: one upload request is issued, the upload state is
    always reset (not uploading, progress 0) and the handler never
    rejects.  When the upload fails, the [App] state is untouched; the
    response interceptor, [apiService.uploadFile] and the component log to
    the console, then one error toast is shown. *)
Lemma onDrop_cleanup : forall srv w file rest,
  FileUpload.isSupported file = true ->
  let w' := snd (appOnDrop srv (file :: rest) w) in
  fst (appOnDrop srv (file :: rest) w) = Ok tt /\
  requests w' = (requests w ++ [UploadFile (name file)])%list /\
  isUploading (uploader w') = false /\ uploadProgress (uploader w') = 0%Z /\
  (is_failure (srv (UploadFile (name file))) = true ->
   app w' = app w /\
   notices w'
   = (notices w ++ [ConsoleError "API Error:"; ConsoleError "API Error:";
                    ConsoleError "Full error:"; ConsoleError "Upload error:";
                    ToastError (JStr "Failed to upload file. Please try again.")])%list).
Proof.
  intros srv w file rest Hs w'. subst w'. split.
  - unfold appOnDrop, FileUpload.onDrop. rewrite Hs. simpl.
    unfold bind, modify_uploader.
    apply try_catch_finally_resolves; reflexivity.
  - destruct w as [a e [up iu uf pd sp] rq ns]. run_client. rewrite Hs. simpl.
    destruct (srv (UploadFile (name file))) as [d|d|]; simpl.
    + destruct d; simpl; destruct (negb (truthy (selectedDataset a))); simpl;
        do 3 (split; [reflexivity|]); intros Hfail; discriminate Hfail.
    + case_ifs; simpl; do 3 (split; [reflexivity|]); intros _;
        (split; [reflexivity|]); rewrite <- !app_assoc; reflexivity.
    + case_ifs; simpl; do 3 (split; [reflexivity|]); intros _;
        (split; [reflexivity|]); rewrite <- !app_assoc; reflexivity.
Qed.

(** [apiService.executeQuery] resolves with the body of a 2xx response;
    otherwise it rejects with the [detail] field of the error body when
    that is truthy, and with ["Failed to execute query"] when it is not or
    when no response arrived. *)
Lemma api_executeQuery_outcome : forall srv q datasetId w,
  fst (ApiService.executeQuery srv q datasetId w)
  = (match srv (ExecuteQuery q datasetId) with
    | Resolved d => Ok d
    | ServerFailure body =>
        Throw (if truthy (prop body "detail") then prop body "detail"
               else JStr "Failed to execute query")
    | NetworkFailure => Throw (JStr "Failed to execute query")
    end) /\
  requests (snd (ApiService.executeQuery srv q datasetId w))
  = (requests w ++ [ExecuteQuery q datasetId])%list.
Proof.
  intros srv q datasetId w. run_client.
  destruct (srv (ExecuteQuery q datasetId)); simpl; split; try reflexivity.
Qed.

(** Filtering out two ids in either order keeps the same datasets. *)
Lemma without_id_comm : forall id1 id2 l,
  without_id id1 (without_id id2 l) = without_id id2 (without_id id1 l).
Proof.
  intros id1 id2 l. unfold without_id. induction l as [|x l IH]; [reflexivity|].
  simpl. destruct (strict_eq (prop x "id") id2) eqn:E2, (strict_eq (prop x "id") id1) eqn:E1;
    simpl; rewrite ?E1, ?E2; simpl; rewrite IH; reflexivity.
Qed.


(* ------------------------------------------------------------------ *)
(** ** Further properties of the tutorial *)

(** Characters of a lesson key component. *)
Fixpoint dash_free (s : string) : bool :=
  match s with
  | EmptyString => true
  | String c rest => negb (Ascii.eqb c "-") && dash_free rest
  end.

(** Tutor states the page reaches: the start, completed lessons, and the
    start buttons of the level cards of the catalog. *)
Inductive tutor_reachable : Tutorial.Tutor -> Prop :=
| treach_init : tutor_reachable Tutorial.initialTutor
| treach_complete : forall st st',
    tutor_reachable st -> Tutorial.completeLesson st = Some st' -> tutor_reachable st'
| treach_start : forall st levelId,
    tutor_reachable st -> In levelId (map Tutorial.level_id Tutorial.tutorialLevels) ->
    tutor_reachable (Tutorial.startLevel st levelId).

Section TutorialProps.
Import Tutorial.

Lemma completeLesson_completed : forall st st',
  completeLesson st = Some st' ->
  completedLessons st' = set_add (lessonKey (currentLevel st) (currentLesson st)) (completedLessons st).
Proof.
  intros st st' H. unfold completeLesson in H.
  destruct (findLevel (currentLevel st)); [|discriminate H].
  destruct (Nat.ltb _ _); [injection H as <-; reflexivity|].
  destruct (Nat.ltb _ _); injection H as <-; reflexivity.
Qed.

Lemma isLevelUnlocked_mono : forall st st' k,
  (forall x, In x (completedLessons st) -> In x (completedLessons st')) ->
  isLevelUnlocked st k = true -> isLevelUnlocked st' k = true.
Proof.
  intros st st' k Hsub H. unfold isLevelUnlocked in *.
  destruct (Nat.eqb k 1); [reflexivity|].
  destruct (findLevel (k - 1)); [|discriminate H].
  rewrite forallb_forall in *. intros lesson Hin.
  apply TutorialFacts.isLessonCompleted_spec, Hsub, TutorialFacts.isLessonCompleted_spec, H, Hin.
Qed.

Lemma findLevel_catalog : forall n,
  In n (map level_id tutorialLevels) -> exists lv, findLevel n = Some lv.
Proof.
  intros n Hn. simpl in Hn.
  destruct Hn as [<- | [<- | [<- | [<- | []]]]]; eexists; reflexivity.
Qed.

Lemma filter_length_le' : forall (A : Type) (p : A -> bool) l,
  List.length (filter p l) <= List.length l.
Proof.
  intros A p l. induction l as [|a l IH]; simpl; [lia|].
  destruct (p a); simpl; lia.
Qed.

Lemma filter_length_eqb : forall (A : Type) (p : A -> bool) l,
  Nat.eqb (List.length (filter p l)) (List.length l) = forallb p l.
Proof.
  intros A p l. induction l as [|a l IH]; [reflexivity|]. simpl.
  destruct (p a); simpl; [exact IH|].
  apply Nat.eqb_neq. pose proof (filter_length_le' A p l). lia.
Qed.

Lemma string_of_uint_dash_free : forall d, dash_free (string_of_uint d) = true.
Proof. induction d; simpl; try rewrite IHd; reflexivity. Qed.

Lemma string_of_uint_inj : forall d d', string_of_uint d = string_of_uint d' -> d = d'.
Proof.
  induction d; destruct d'; simpl; intros H; try discriminate H; try reflexivity;
    injection H as H; f_equal; apply IHd, H.
Qed.

Lemma dash_split_inj : forall a b c e,
  dash_free a = true -> dash_free c = true ->
  (a ++ "-" ++ b)%string = (c ++ "-" ++ e)%string -> a = c /\ b = e.
Proof.
  induction a as [|x a IH]; intros b [|y c] e Ha Hc H; simpl in *.
  - injection H as H. split; [reflexivity | exact H].
  - injection H as Hy _. subst y. discriminate Hc.
  - injection H as Hx _. subst x. discriminate Ha.
  - injection H as Hxy H. subst y.
    apply andb_prop in Ha as [_ Ha]. apply andb_prop in Hc as [_ Hc].
    destruct (IH b c e Ha Hc H) as [-> ->]. split; reflexivity.
Qed.

End TutorialProps.

Section TutorialTheorems.
Import Tutorial.


(** Completing a lesson that is already completed leaves the completed
    set as it is: the [Set] does not grow a duplicate. *)
Lemma completeLesson_repeat_keeps_set : forall st st',
  In (lessonKey (currentLevel st) (currentLesson st)) (completedLessons st) ->
  completeLesson st = Some st' ->
  completedLessons st' = completedLessons st.
Proof.
  intros st st' Hin H. rewrite (completeLesson_completed _ _ H). unfold set_add.
  replace (existsb _ _) with true; [reflexivity|].
  symmetry. apply existsb_exists. exists (lessonKey (currentLevel st) (currentLesson st)).
  split; [exact Hin | apply String.eqb_refl].
Qed.

Lemma tutor_reachable_level : forall st,
  tutor_reachable st -> In (currentLevel st) (map level_id tutorialLevels).
Proof.
  intros st Hr. induction Hr as [| st st' Hr IH Hc | st levelId Hr IH Hin].
  - simpl. auto.
  - destruct (findLevel_catalog _ IH) as [lv Hlv].
    unfold completeLesson in Hc. rewrite Hlv in Hc.
    destruct (Nat.ltb (currentLesson st) _); [injection Hc as <-; exact IH|].
    destruct (Nat.ltb (currentLevel st) (List.length tutorialLevels)) eqn:Elt;
      injection Hc as <-; [|exact IH].
    simpl in IH |- *. apply Nat.ltb_lt in Elt. simpl in Elt. lia.
  - unfold startLevel. destruct (isLevelUnlocked st levelId); [exact Hin | exact IH].
Qed.

(** On every tutor state the page reaches, the current level is a level
    of the catalog, so [completeLesson] never hits the [TypeError] of a
    missing level. *)
Lemma tutor_reachable_completeLesson_defined : forall st,
  tutor_reachable st ->
  In (currentLevel st) (map level_id tutorialLevels) /\
  exists st', completeLesson st = Some st'.
Proof.
  intros st Hr. pose proof (tutor_reachable_level st Hr) as Hin.
  split; [exact Hin|].
  destruct (findLevel_catalog _ Hin) as [lv Hlv].
  unfold completeLesson. rewrite Hlv.
  destruct (Nat.ltb _ _); [eexists; reflexivity|].
  destruct (Nat.ltb _ _); eexists; reflexivity.
Qed.

(** [startLevel] keeps the lesson pointer of the previous level and
    [completeLesson] moves to the next level after the last lesson number,
    so the page can point at a level that is still locked: from the start,
    complete level 1, go back to level 1, complete its first lesson, start
    level 2 (now at lesson 2) and complete it. *)
Lemma tutor_pointer_reaches_locked_level :
  exists st, tutor_reachable st /\ isLevelUnlocked st (currentLevel st) = false.
Proof.
  set (s1 := mkTutor 1 2 ["1-1"]).
  set (s2 := mkTutor 1 3 ["1-1"; "1-2"]).
  set (s3 := mkTutor 2 1 ["1-1"; "1-2"; "1-3"]).
  set (s5 := mkTutor 1 2 ["1-1"; "1-2"; "1-3"]).
  set (s7 := mkTutor 3 1 ["1-1"; "1-2"; "1-3"; "2-2"]).
  exists s7. split; [|reflexivity].
  apply (treach_complete (startLevel s5 2)); [|reflexivity].
  apply treach_start; [|simpl; auto].
  apply (treach_complete (startLevel s3 1)); [|reflexivity].
  apply treach_start; [|simpl; auto].
  apply (treach_complete s2); [|reflexivity].
  apply (treach_complete s1); [|reflexivity].
  apply (treach_complete initialTutor); [exact treach_init | reflexivity].
Qed.

(** Lesson keys [`${levelId}-${lessonId}`] do not collide: two keys are
    equal only for the same level and lesson numbers. *)
Lemma lessonKey_injective : forall l1 s1 l2 s2,
  lessonKey l1 s1 = lessonKey l2 s2 -> l1 = l2 /\ s1 = s2.
Proof.
  intros l1 s1 l2 s2 H. unfold lessonKey, show_nat in H.
  apply dash_split_inj in H as [H1 H2]; try apply string_of_uint_dash_free.
  apply string_of_uint_inj, DecimalNat.Unsigned.to_uint_inj in H1.
  apply string_of_uint_inj, DecimalNat.Unsigned.to_uint_inj in H2.
  split; assumption.
Qed.

(** A level card shows its check mark ([progress === 100]) exactly when
    the next level is unlocked. *)
Lemma levelCompleted_iff_next_unlocked : forall st k,
  1 <= k -> isLevelCompleted st k = isLevelUnlocked st (k + 1).
Proof.
  intros st k Hk. unfold isLevelCompleted, levelProgress, isLevelUnlocked.
  replace (Nat.eqb (k + 1) 1) with false by (symmetry; apply Nat.eqb_neq; lia).
  replace (k + 1 - 1) with k by lia.
  destruct (findLevel k) as [lv|] eqn:Hlv; [|reflexivity].
  rewrite filter_length_eqb.
  destruct (TutorialFacts.findLevel_cases _ _ Hlv) as [Hcat _].
  assert (Hne : Nat.eqb (List.length (lessons lv)) 0 = false).
  { destruct Hcat as [-> | [-> | [-> | ->]]]; injection Hlv as <-; reflexivity. }
  rewrite Hne, andb_true_r. reflexivity.
Qed.

End TutorialTheorems.

(* ------------------------------------------------------------------ *)
(** ** Further properties of the dataset manager *)

Lemma lower_char_idem : forall c, lower_char (lower_char c) = lower_char c.
Proof.
  intros [b0 b1 b2 b3 b4 b5 b6 b7].
  destruct b0, b1, b2, b3, b4, b5, b6, b7; vm_compute; reflexivity.
Qed.

Lemma toLowerCase_idem : forall s, toLowerCase (toLowerCase s) = toLowerCase s.
Proof. induction s as [|c s IH]; simpl; [reflexivity|]. rewrite lower_char_idem, IH. reflexivity. Qed.

Lemma strict_eq_true : forall x y, strict_eq x y = true -> x = y.
Proof.
  intros [] [] H; simpl in H; try discriminate H; try reflexivity.
  - apply Bool.eqb_prop in H. subst. reflexivity.
  - apply Z.eqb_eq in H. subst. reflexivity.
  - apply String.eqb_eq in H. subst. reflexivity.
Qed.

Lemma strict_eq_sym : forall x y, strict_eq x y = strict_eq y x.
Proof.
  intros [] []; simpl; try reflexivity.
  - destruct b, b0; reflexivity.
  - apply Z.eqb_sym.
  - apply String.eqb_sym.
Qed.

Section DataManagerProps.
Import DataManager.

Lemma set_has_app : forall x l1 l2, set_has x (l1 ++ l2) = set_has x l1 || set_has x l2.
Proof. intros x l1 l2. unfold set_has. apply existsb_app. Qed.

Lemma set_has_delete : forall x i s,
  set_has x (set_delete i s) = set_has x s && negb (strict_eq x i).
Proof.
  intros x i s. induction s as [|y s IH]; simpl; [reflexivity|].
  destruct (strict_eq i y) eqn:Eiy; simpl.
  - apply strict_eq_true in Eiy. subst y. rewrite IH.
    destruct (strict_eq x i); simpl; [rewrite andb_false_r|]; reflexivity.
  - unfold set_has in *. simpl. rewrite IH.
    destruct (strict_eq x y) eqn:Exy; simpl.
    + apply strict_eq_true in Exy. subst y. rewrite strict_eq_sym, Eiy. reflexivity.
    + reflexivity.
Qed.

Lemma fold_set_add_nodup : forall l acc,
  NoDup (acc ++ l) -> fold_left (fun s x => set_add x s) l acc = (acc ++ l)%list.
Proof.
  induction l as [|x l IH]; intros acc Hnd; simpl; [rewrite app_nil_r; reflexivity|].
  assert (Hnot : set_has x acc = false).
  { destruct (set_has x acc) eqn:E; [|reflexivity].
    apply existsb_exists in E as [y [Hy Hxy]]. apply strict_eq_true in Hxy. subst y.
    apply NoDup_remove_2 in Hnd. exfalso. apply Hnd. apply in_or_app. left. exact Hy. }
  replace (set_add x acc) with (acc ++ [x])%list
    by (unfold set_add; rewrite Hnot; reflexivity).
  rewrite IH.
  - rewrite <- app_assoc. reflexivity.
  - rewrite <- app_assoc. exact Hnd.
Qed.

(** With an empty search term every dataset whose name is a string is
    listed; a dataset whose [original_name] is not a string makes the
    filter throw, whatever the search term. *)
Lemma filter_empty_term_and_crash : forall ds,
  ((forall d, In d ds -> exists n, prop d "original_name" = JStr n) ->
   filterDatasets "" ds = Some ds) /\
  (forall searchTerm d, In d ds -> (forall n, prop d "original_name" <> JStr n) ->
   filterDatasets searchTerm ds = None).
Proof.
  induction ds as [|d ds [IH1 IH2]]; split.
  - reflexivity.
  - intros searchTerm d [].
  - intros Hall. simpl.
    destruct (Hall d (or_introl eq_refl)) as [n Hn].
    unfold matchesSearch. rewrite Hn. simpl.
    replace (includes (toLowerCase n) "") with true
      by (destruct (toLowerCase n); reflexivity).
    rewrite IH1; [reflexivity|]. intros d' Hd'. apply Hall. right. exact Hd'.
  - intros searchTerm d' [<- | Hin] Hnot; simpl.
    + unfold matchesSearch, lowerOf.
      destruct (prop d "original_name"); try reflexivity. exfalso. exact (Hnot s eq_refl).
    + rewrite (IH2 searchTerm d' Hin Hnot).
      destruct (matchesSearch searchTerm d); reflexivity.
Qed.

(** The search ignores the case of the term. *)
Lemma filter_term_case_insensitive : forall searchTerm ds,
  filterDatasets (toLowerCase searchTerm) ds = filterDatasets searchTerm ds.
Proof.
  intros searchTerm ds. induction ds as [|d ds IH]; [reflexivity|]. simpl.
  unfold matchesSearch. rewrite toLowerCase_idem, IH. reflexivity.
Qed.

(** Clicking a dataset's checkbox twice gives back the same selected
    ids. *)
Lemma handleSelectDataset_twice : forall datasetId s x,
  strict_eq datasetId datasetId = true ->
  set_has x (handleSelectDataset datasetId (handleSelectDataset datasetId s)) = set_has x s.
Proof.
  intros i s x Hi. unfold handleSelectDataset, set_add.
  assert (Hlast : forall y l, set_has y (l ++ [i]) = set_has y l || strict_eq y i).
  { intros y l. rewrite set_has_app. unfold set_has at 2. simpl. rewrite orb_false_r. reflexivity. }
  destruct (set_has i s) eqn:Ei.
  - rewrite set_has_delete, Ei, Hi. simpl.
    rewrite Hlast, set_has_delete.
    destruct (strict_eq x i) eqn:Exi; simpl.
    + apply strict_eq_true in Exi. subst x. rewrite Ei. reflexivity.
    + rewrite ?andb_true_r, ?orb_false_r. reflexivity.
  - rewrite (Hlast i), Ei, Hi. simpl.
    rewrite set_has_delete, Hlast.
    destruct (strict_eq x i) eqn:Exi; simpl.
    + apply strict_eq_true in Exi. subst x. rewrite Ei. reflexivity.
    + rewrite ?andb_true_r, ?orb_false_r. reflexivity.
Qed.

(** When the listed datasets have distinct ids, "select all" from a
    selection of another size selects exactly their ids, and a second
    click clears the selection. *)
Lemma handleSelectAll_toggles : forall filteredDatasets s,
  NoDup (map (fun d => prop d "id") filteredDatasets) ->
  List.length s <> List.length filteredDatasets ->
  handleSelectAll filteredDatasets s = map (fun d => prop d "id") filteredDatasets /\
  handleSelectAll filteredDatasets (handleSelectAll filteredDatasets s) = [].
Proof.
  intros fd s Hnd Hlen.
  assert (H1 : handleSelectAll fd s = map (fun d => prop d "id") fd).
  { unfold handleSelectAll.
    replace (Nat.eqb (List.length s) (List.length fd)) with false
      by (symmetry; apply Nat.eqb_neq; exact Hlen).
    unfold set_of. rewrite (fold_set_add_nodup _ [] Hnd). reflexivity. }
  split; [exact H1|]. rewrite H1.
  unfold handleSelectAll. rewrite length_map, Nat.eqb_refl. reflexivity.
Qed.

End DataManagerProps.

(* ------------------------------------------------------------------ *)
(** ** Instances of the properties above *)

Lemma initializeApp_success_drops_lists_witness :
  srv_all_ok GetDatasets = Resolved (JObj [("datasets", JArr [dataset_d1])]) /\
  AppHandlers.initializeApp srv_all_ok initialWorld
  = (Ok tt, mkWorld (mkApp "dashboard" [] JNull false (JObj [("max_file_size", JNum 100)]) []
                           (JObj []) true)
                    initialEditor initialUploader [GetConfig; GetDatasets; GetQueryHistory] []).
Proof.
  split; [reflexivity|].
  exact (initializeApp_success_drops_lists srv_all_ok initialWorld (JObj [("max_file_size", JNum 100)])
           [dataset_d1] [record_on_d1] eq_refl eq_refl eq_refl).
Defined.

Lemma executeQuery_cleanup_witness :
  String.eqb (trim (query (editor world_d1_selected))) "" = false /\
  truthy (selectedDataset (app world_d1_selected)) = true /\
  isExecuting (editor (snd (appExecuteQuery srv_query_rejected world_d1_selected))) = false /\
  queryResult (editor (snd (appExecuteQuery srv_query_rejected world_d1_selected))) = JNull.
Proof.
  split; [reflexivity|]. split; [reflexivity|].
  destruct (proj2 (executeQuery_cleanup srv_query_rejected world_d1_selected) eq_refl eq_refl)
    as [_ [H1 H2]].
  split; [exact H1|]. rewrite H2. reflexivity.
Defined.

Lemma onDrop_cleanup_witness :
  FileUpload.isSupported (mkFile "data.csv") = true /\
  app (snd (appOnDrop (fun _ => NetworkFailure) [mkFile "data.csv"] initialWorld)) = initialApp.
Proof.
  split; [reflexivity|].
  exact (proj1 (proj2 (proj2 (proj2 (proj2
           (onDrop_cleanup (fun _ => NetworkFailure) initialWorld (mkFile "data.csv") [] eq_refl))))
           eq_refl)).
Defined.


Lemma completeLesson_repeat_keeps_set_witness :
  In "1-1" ["1-1"] /\
  Tutorial.completeLesson (Tutorial.mkTutor 1 1 ["1-1"]) = Some (Tutorial.mkTutor 1 2 ["1-1"]) /\
  Tutorial.completedLessons (Tutorial.mkTutor 1 2 ["1-1"]) = ["1-1"].
Proof.
  split; [left; reflexivity|]. split; [reflexivity|].
  exact (completeLesson_repeat_keeps_set (Tutorial.mkTutor 1 1 ["1-1"]) (Tutorial.mkTutor 1 2 ["1-1"])
           (or_introl eq_refl) eq_refl).
Defined.

Lemma tutor_reachable_completeLesson_defined_witness :
  tutor_reachable (Tutorial.startLevel Tutorial.initialTutor 1) /\
  exists st', Tutorial.completeLesson (Tutorial.startLevel Tutorial.initialTutor 1) = Some st'.
Proof.
  assert (Hr : tutor_reachable (Tutorial.startLevel Tutorial.initialTutor 1)).
  { apply treach_start; [exact treach_init | simpl; auto]. }
  split; [exact Hr|].
  exact (proj2 (tutor_reachable_completeLesson_defined _ Hr)).
Defined.

Lemma lessonKey_injective_witness :
  Tutorial.lessonKey 12 3 = "12-3" /\ 12 = 12 /\ 3 = 3.
Proof.
  split; [reflexivity|].
  exact (lessonKey_injective 12 3 12 3 eq_refl).
Defined.

Lemma levelCompleted_iff_next_unlocked_witness :
  1 <= 1 /\
  Tutorial.isLevelCompleted (Tutorial.mkTutor 2 1 ["1-1"; "1-2"; "1-3"]) 1
  = Tutorial.isLevelUnlocked (Tutorial.mkTutor 2 1 ["1-1"; "1-2"; "1-3"]) 2.
Proof.
  split; [lia|].
  exact (levelCompleted_iff_next_unlocked (Tutorial.mkTutor 2 1 ["1-1"; "1-2"; "1-3"]) 1
           ltac:(lia)).
Defined.

(** A dataset record without a name. *)
Definition unnamed_dataset : jval := JObj [("id", JStr "d2"); ("file_type", JStr "csv")].

Lemma filter_empty_term_and_crash_witness :
  DataManager.filterDatasets "" [dataset_d1] = Some [dataset_d1] /\
  DataManager.filterDatasets "sales" [dataset_d1; unnamed_dataset] = None.
Proof.
  split.
  - apply (proj1 (filter_empty_term_and_crash [dataset_d1])).
    intros d [<- | []]. exists "sales.csv". reflexivity.
  - apply (proj2 (filter_empty_term_and_crash [dataset_d1; unnamed_dataset]) "sales" unnamed_dataset).
    + right. left. reflexivity.
    + intros n H. discriminate H.
Defined.

Lemma handleSelectDataset_twice_witness :
  strict_eq (JStr "d1") (JStr "d1") = true /\
  DataManager.set_has (JStr "d2")
    (DataManager.handleSelectDataset (JStr "d1")
       (DataManager.handleSelectDataset (JStr "d1") [JStr "d2"])) = true.
Proof.
  split; [reflexivity|].
  rewrite (handleSelectDataset_twice (JStr "d1") [JStr "d2"] (JStr "d2") eq_refl). reflexivity.
Defined.

Lemma handleSelectAll_toggles_witness :
  NoDup (map (fun d => prop d "id") [dataset_d1; unnamed_dataset]) /\
  DataManager.handleSelectAll [dataset_d1; unnamed_dataset] [] = [JStr "d1"; JStr "d2"] /\
  DataManager.handleSelectAll [dataset_d1; unnamed_dataset]
    (DataManager.handleSelectAll [dataset_d1; unnamed_dataset] []) = [].
Proof.
  assert (Hnd : NoDup (map (fun d => prop d "id") [dataset_d1; unnamed_dataset])).
  { simpl. constructor; [intros [H | []]; discriminate H|].
    constructor; [intros []|constructor]. }
  split; [exact Hnd|].
  exact (handleSelectAll_toggles [dataset_d1; unnamed_dataset] [] Hnd ltac:(simpl; lia)).
Defined.
